(** * url-fetch: fetching a URL, a file or standard input into a noms blob

    A shallow embedding of [samples/go/url-fetch/fetch.go] ([main] and
    [getStatusPrinter]) and of [go/d/check_error.go] ([CheckErrorNoUsage]).

    The program is one sequential run against its surroundings: the command
    line, the dataset, an HTTP server, the file system, the clock.  The
    surroundings are a record [Env] of answers; the run is a computation in a
    small monad that threads the store and a trace of the calls made to the
    collaborators, and that stops early on [return], on [exit.Fail()] and on a
    panic. *)

From Stdlib Require Import ZArith List String Ascii Strings.Byte Lia DecimalString.
From Stdlib Require Import Floats.SpecFloat.
From stdpp Require Import base strings gmap list.

Set Warnings "-register-all".

Open Scope string_scope.
Open Scope Z_scope.

(* ===================================================================== *)
(** * Data *)
(* ===================================================================== *)

(** A Go [error]: what [%s] shows of it.  Two errors are the same when their
    texts are (the comparison [d.Chk.Equal] makes on [errors.New] values). *)
Record error := mkError { Error : string }.

Global Instance error_eq_dec : EqDecision error.
Proof. solve_decision. Defined.

(** A Go pair [(value, err)] of which exactly one side is meaningful. *)
Inductive result (A : Type) :=
| Ok (a : A)
| Err (e : error).
Arguments Ok {A} a.
Arguments Err {A} e.

(** An [io.Reader] that ends: the successive chunks its [Read] delivers. *)
Definition Stream := list (list byte).

(** [root.Meta] of [main], lines 62-68: absent fields are empty strings. *)
Record Meta := mkMeta { Etag : string; File : string; URL : string }.

Definition zeroMeta : Meta := {| Etag := EmptyString; File := EmptyString; URL := EmptyString |}.

(** The commit-metadata struct, as its string fields. *)
Definition MetaStruct := gmap string string.

(** The values of the store a run meets: blobs, and commits of them. *)
Inductive Value :=
| Blob (data : list byte)
| CommitOf (parent : option Value) (value : Value) (meta : MetaStruct).

(** The database with the one dataset of the run: the dataset's head (the
    named version pointer) and the values written so far. *)
Record Database := mkDatabase {
  ds_head : option Value;
  db_values : list Value
}.

Record Request := mkRequest {
  req_Method : string;
  req_URL : string;
  req_Header : gmap string string
}.

Record Response := mkResponse {
  StatusCode : Z;
  Status : string;
  ContentLength : Z;
  Header : gmap string string;
  Body : Stream
}.

(** [h.Get(key)]: the empty string when the header is absent. *)
Definition Header_Get (h : gmap string string) (key : string) : string :=
  default EmptyString (h !! key).

(** An opened [*os.File]: what [Stat] answers, and what reading delivers. *)
Record OsFile := mkOsFile {
  file_Stat : result Z;
  file_data : Stream
}.

(** Calls to the collaborators, in the order the run makes them. *)
Inductive Event :=
| Stdout (s : string)
| Stderr (s : string)
| PrintDefaults
| GetDataset (target : string)
| HttpNewRequest (method url : string)
| HttpDo (req : Request)
| OsOpen (path : string)
| FileStat (path : string)
| NewBlob (data : list byte)
| CreateCommitMetaStruct (kv : gmap string string)
| Commit (b : Value) (meta : MetaStruct)
| WriteValue (b : Value)
| StatusPrintf (line : string)
| StatusDone
| StatusClear
| DbClose.

(** How the process ends. *)
Inductive Termination :=
| Returned
| Exited (code : Z)
| Panicked (msg : string).

(** Everything outside the program that one run depends on. *)
Record Env := mkEnv {
  (* command line *)
  os_Args0 : string;
  noProgress : bool;
  performCommit : bool;
  stdin : bool;
  flag_Args : list string;
  (* the store *)
  database : Database;
  GetDataset_err : string -> option error;
  Unmarshal : Value -> result Meta;
  CreateCommitMetaStruct_res : gmap string string -> result MetaStruct;
  Commit_err : Database -> Value -> MetaStruct -> option error;
  ErrMergeNeeded : error;
  Hash_String : Value -> string;
  (* network, file system, standard input *)
  NewRequest_err : string -> option error;
  Do : Request -> result Response;
  os_Open : string -> result OsFile;
  os_Stdin : Stream;
  (* [time.Now().Sub(start)], in nanoseconds, at its k-th evaluation *)
  since_start : nat -> Z;
  (* github.com/dustin/go-humanize *)
  human_Bytes : Z -> string;
  (* what the platform makes of [uint64(f)] when [f] is no uint64 *)
  uint64_of_other : spec_float -> Z
}.

(* ===================================================================== *)
(** * Numbers: float64, uint64, time.Duration *)
(* ===================================================================== *)

Definition prec64 : Z := 53.
Definition emax64 : Z := 1024.

Definition two64 : Z := 2 ^ 64.

(** [float64(n)] of an integer: rounded to nearest, ties to even. *)
Definition float64_of_Z (n : Z) : spec_float :=
  binary_normalize prec64 emax64 n 0 false.

Definition float64_div : spec_float -> spec_float -> spec_float :=
  SFdiv prec64 emax64.

Definition float64_add : spec_float -> spec_float -> spec_float :=
  SFadd prec64 emax64.

(** [uint64(f)] of a non-constant [f]: the fraction is dropped; when the
    result is no uint64 (negative, too large, infinite, not a number) the
    language leaves the value to the implementation. *)
Definition uint64_of_float64 (other : spec_float -> Z) (f : spec_float) : Z :=
  match f with
  | S754_zero _ => 0
  | S754_finite s m e =>
      let t := Z.shiftl (Z.pos m) e in
      if s then (if t =? 0 then 0 else other f)
      else (if t <? two64 then t else other f)
  | _ => other f
  end.

(** [time.Duration.Seconds], with [time.Second = 1e9] nanoseconds; [/] and
    [%] on Go integers truncate toward zero. *)
Definition Seconds (d : Z) : spec_float :=
  let sec := Z.quot d 1000000000 in
  let nsec := Z.rem d 1000000000 in
  float64_add (float64_of_Z sec)
              (float64_div (float64_of_Z nsec) (float64_of_Z 1000000000)).

(** [%d] of an integer. *)
Definition itoa (n : Z) : string := NilZero.string_of_int (Z.to_int n).

(** [strings.HasPrefix(s, prefix)]. *)
Definition HasPrefix (s pre : string) : bool := String.prefix pre s.

(** [flag.Arg(i)]: the empty string when there is no such argument. *)
Definition nth_arg (args : list string) (i : nat) : string :=
  nth i args EmptyString.

(** The line feed of the Go string literals. *)
Definition nl : string := String "010"%char EmptyString.

(* ===================================================================== *)
(** * The run monad *)
(* ===================================================================== *)

(** What a run changes: the store, the trace of calls made so far, and how
    often the clock has been read. *)
Record State := mkState {
  st_db : Database;
  st_trace : list Event;
  st_clock : nat
}.

(** A step either goes on with a value, or ends the process. *)
Inductive Res (A : Type) :=
| Cont (a : A) (s : State)
| Stop (t : Termination) (s : State).
Arguments Cont {A} a s.
Arguments Stop {A} t s.

Definition M (A : Type) : Type := State -> Res A.

Global Instance M_ret : MRet M := fun A a s => Cont a s.

Global Instance M_bind : MBind M := fun A B f m s =>
  match m s with
  | Cont a s' => f a s'
  | Stop t s' => Stop t s'
  end.

Definition emit (e : Event) : M unit := fun s =>
  Cont tt {| st_db := st_db s; st_trace := (st_trace s ++ [e])%list; st_clock := st_clock s |}.

Definition stop {A : Type} (t : Termination) : M A := fun s => Stop t s.

(** [return] inside [main]. *)
Definition return_ {A : Type} : M A := stop Returned.

Definition get_db : M Database := fun s => Cont (st_db s) s.

Definition set_db (db : Database) : M unit := fun s =>
  Cont tt {| st_db := db; st_trace := st_trace s; st_clock := st_clock s |}.

(** [defer f()] around the rest of the function: [f] runs when the function
    returns or panics, and does not when the process exits. *)
Definition defer {A : Type} (e : Event) (body : M A) : M A := fun s =>
  match body s with
  | Cont a s' =>
      match emit e s' with Cont _ s'' => Cont a s'' | Stop t s'' => Stop t s'' end
  | Stop (Exited c) s' => Stop (Exited c) s'
  | Stop t s' =>
      match emit e s' with Cont _ s'' => Stop t s'' | Stop t' s'' => Stop t' s'' end
  end.

Definition Fprintf_Stdout (s : string) : M unit := emit (Stdout s).
Definition Fprintf_Stderr (s : string) : M unit := emit (Stderr s).

(** Modelled from the spec: [exit.Fail] of go/util/exit, which is not among
    the sources; it ends the process with a non-zero status. *)
Definition exit_Fail : M unit := stop (Exited 1).

(** go/d/check_error.go, [CheckErrorNoUsage]. *)
Definition CheckErrorNoUsage (err : option error) : M unit :=
  match err with
  | Some e => Fprintf_Stderr ("error: " +:+ Error e +:+ nl) ;; exit_Fail
  | None => mret tt
  end.

(** Modelled from the spec: [d.Chk] of go/d, which is not among the sources;
    an assertion that does not hold is fatal for the run, and the failure is
    reported verbatim. *)
Definition Chk_Equal (expected actual : error) : M unit :=
  if decide (expected = actual) then mret tt
  else stop (Panicked (Error actual)).

(** What is seen of a run from outside: how it ended, the store it left,
    and the calls it made. *)
Record Run := mkRun {
  run_end : Termination;
  run_db : Database;
  run_trace : list Event
}.

(** Falling off the end of [main] is a return. *)
Definition finish (res : Res unit) : Run :=
  match res with
  | Cont _ s => {| run_end := Returned; run_db := st_db s; run_trace := st_trace s |}
  | Stop t s => {| run_end := t; run_db := st_db s; run_trace := st_trace s |}
  end.

Section Run.

Variable env : Env.

(** [flag.NArg()] and [flag.Arg(i)]. *)
Definition flag_NArg : nat := length (flag_Args env).
Definition flag_Arg (i : nat) : string := nth_arg (flag_Args env) i.

(** [flag.Usage], as set at lines 41-44. *)
Definition flag_Usage : M unit :=
  Fprintf_Stderr ("Fetches a URL, file, or stdin into a noms blob" +:+ nl +:+ nl
                  +:+ "Usage: " +:+ os_Args0 env
                  +:+ " [--stdin?] [url-or-local-path?] [dataset]" +:+ nl) ;;
  emit PrintDefaults.

Definition cfg_GetDataset (target : string) : M (option error) :=
  emit (GetDataset target) ;; mret (GetDataset_err env target).

Definition http_NewRequest (method url : string) : M (option error) :=
  emit (HttpNewRequest method url) ;; mret (NewRequest_err env url).

Definition http_Do (req : Request) : M (result Response) :=
  emit (HttpDo req) ;; mret (Do env req).

Definition os_Open_ (path : string) : M (result OsFile) :=
  emit (OsOpen path) ;; mret (os_Open env path).

Definition f_Stat (path : string) (f : OsFile) : M (result Z) :=
  emit (FileStat path) ;; mret (file_Stat f).

(** [time.Now().Sub(start)]: the next reading of the clock. *)
Definition time_since_start : M Z := fun s =>
  Cont (since_start env (st_clock s))
       {| st_db := st_db s; st_trace := st_trace s; st_clock := S (st_clock s) |}.

Definition status_Printf (line : string) : M unit := emit (StatusPrintf line).
Definition status_Done : M unit := emit StatusDone.
Definition status_Clear : M unit := emit StatusClear.

(** ** getStatusPrinter, lines 160-178 *)

(** The text handed to [status.Printf], given the reading of the clock. *)
Definition expected (expectedLen : Z) : string :=
  if expectedLen <? 0 then "(unknown)"
  else human_Bytes env (expectedLen mod two64).

Definition rate (seenLen elapsed : Z) : Z :=
  uint64_of_float64 (uint64_of_other env)
    (float64_div (float64_of_Z seenLen) (Seconds elapsed)).

Definition statusLine (expectedLen seenLen elapsed : Z) : string :=
  human_Bytes env seenLen +:+ " of " +:+ expected expectedLen +:+ " written in "
    +:+ itoa (uint64_of_float64 (uint64_of_other env) (Seconds elapsed))
    +:+ "s (" +:+ human_Bytes env (rate seenLen elapsed) +:+ "/s)...".

Definition getStatusPrinter (expectedLen : Z) (seenLen : Z) : M unit :=
  elapsed ← time_since_start;
  status_Printf (statusLine expectedLen seenLen elapsed).

(** ** The collaborators that move data *)

(** A reader, and the callback [progressreader.New] has put around it. *)
Definition Reader : Type := Stream * option (Z -> M unit).

Definition progressreader_New (r : Reader) (cb : Z -> M unit) : Reader :=
  (fst r, Some cb).

(** Modelled from the spec: the reader of go/util/progressreader, which is
    not among the sources; after each read of [n] bytes it adds [n] to the
    running total and calls the callback with the new total, and it passes
    the data through unchanged. *)
Fixpoint progress_Read (cb : Z -> M unit) (seen : Z) (r : Stream) : M (list byte) :=
  match r with
  | [] => mret []
  | p :: r' =>
      let seen' := (seen + Z.of_nat (length p)) mod two64 in
      cb seen' ;;
      rest ← progress_Read cb seen' r';
      mret (p ++ rest)%list
  end.

(** Modelled from the spec: [types.NewBlob] of go/types, which is not among
    the sources; it reads the stream to its end and makes the blob of exactly
    the bytes read. *)
Definition types_NewBlob (r : Reader) : M Value :=
  data ← match snd r with
         | Some cb => progress_Read cb 0 (fst r)
         | None => mret (concat (fst r))
         end;
  emit (NewBlob data) ;;
  mret (Blob data).

(** Modelled from the spec: [Database.Commit] of go/datas, which is not among
    the sources; the blob becomes the new version on top of the dataset's
    current head, or the commit fails and nothing is committed. *)
Definition db_Commit (b : Value) (meta : MetaStruct) : M (option error) :=
  emit (Commit b meta) ;;
  db ← get_db;
  match Commit_err env db b meta with
  | Some e => mret (Some e)
  | None =>
      let c := CommitOf (ds_head db) b meta in
      set_db {| ds_head := Some c; db_values := c :: db_values db |} ;;
      mret None
  end.

(** Modelled from the spec: [Database.WriteValue] of go/datas, which is not
    among the sources; the value is written without advancing any named
    version pointer, and the reference to it is returned. *)
Definition db_WriteValue (b : Value) : M Value :=
  emit (WriteValue b) ;;
  db ← get_db;
  set_db {| ds_head := ds_head db; db_values := b :: db_values db |} ;;
  mret b.

Definition spec_CreateCommitMetaStruct (kv : gmap string string)
  : M (MetaStruct * option error) :=
  emit (CreateCommitMetaStruct kv) ;;
  mret (match CreateCommitMetaStruct_res env kv with
        | Ok m => (m, None)
        | Err e => (∅, Some e)
        end).

(** ** main, lines 33-158 *)

(** Lines 62-75: the metadata of the previous fetch, from the head. *)
Definition load_root : M Meta :=
  db ← get_db;
  match ds_head db with
  | Some h =>
      match Unmarshal env h with
      | Err e =>
          Fprintf_Stderr ("Could not unmarshal head: " +:+ Error e +:+ nl) ;;
          return_
      | Ok root => mret root
      end
  | None => mret zeroMeta
  end.

(** Lines 82-90: the GET request, with the precondition header when the
    stored URL is the requested one and an etag was recorded. *)
Definition build_request (root : Meta) (url : string) : Request :=
  let header : gmap string string := ∅ in
  let header :=
    if decide (URL root = url ∧ Etag root ≠ EmptyString)
    then <["If-None-Match" := Etag root]> header
    else header in
  mkRequest "GET" url header.

(** Lines 111-114: what a fetched response adds to [additionalMetaInfo]. *)
Definition http_meta (url : string) (resp : Response)
    (additionalMetaInfo : gmap string string) : gmap string string :=
  let additionalMetaInfo := <["url" := url]> additionalMetaInfo in
  let etag := Header_Get (Header resp) "Etag" in
  if decide (etag ≠ EmptyString)
  then <["etag" := etag]> additionalMetaInfo
  else additionalMetaInfo.

(** Lines 77-132: the reader [r], [contentLength] and [additionalMetaInfo]. *)
Definition resolve (root : Meta) : M (Stream * Z * gmap string string) :=
  let additionalMetaInfo : gmap string string := ∅ in
  if stdin env then
    mret (os_Stdin env, -1, additionalMetaInfo)
  else
    let url := flag_Arg 0 in
    if HasPrefix url "http" then
      err ← http_NewRequest "GET" url;
      match err with
      | Some e =>
          Fprintf_Stderr ("Could not build http request for url " +:+ url
                          +:+ ", error: " +:+ Error e +:+ nl) ;;
          return_
      | None =>
          res ← http_Do (build_request root url);
          match res with
          | Err e =>
              Fprintf_Stderr ("Could not fetch url " +:+ url +:+ ", error: "
                              +:+ Error e +:+ nl) ;;
              return_
          | Ok resp =>
              if StatusCode resp =? 304 then
                Fprintf_Stdout "Content unchanged since last fetch, no commit made" ;;
                return_
              else if (Z.quot (StatusCode resp) 100 =? 4)
                      || (Z.quot (StatusCode resp) 100 =? 5) then
                Fprintf_Stderr ("Could not fetch url " +:+ url +:+ ", error: "
                                +:+ itoa (StatusCode resp) +:+ " ("
                                +:+ Status resp +:+ ")" +:+ nl) ;;
                return_
              else
                mret (Body resp, ContentLength resp,
                      http_meta url resp additionalMetaInfo)
          end
      end
    else
      (* assume it's a file *)
      res ← os_Open_ url;
      match res with
      | Err e =>
          Fprintf_Stderr ("Invalid URL " +:+ url
                          +:+ " - does not start with 'http' and isn't local file either. fopen error: "
                          +:+ Error e) ;;
          return_
      | Ok f =>
          res ← f_Stat url f;
          match res with
          | Err e =>
              Fprintf_Stderr ("Could not stat file " +:+ url +:+ ": " +:+ Error e) ;;
              return_
          | Ok size =>
              let additionalMetaInfo := <["file" := url]> additionalMetaInfo in
              mret (file_data f, size, additionalMetaInfo)
          end
      end.

(** Lines 134-157: the blob, and what is done with it. *)
Definition ingest (src : Stream * Z * gmap string string) : M unit :=
  let '(r, contentLength, additionalMetaInfo) := src in
  let r : Reader := (r, None) in
  let r : Reader :=
    if negb (noProgress env)
    then progressreader_New r (getStatusPrinter contentLength)
    else r in
  b ← types_NewBlob r;
  if performCommit env then
    '(meta, err) ← spec_CreateCommitMetaStruct additionalMetaInfo;
    CheckErrorNoUsage err ;;
    err ← db_Commit b meta;
    match err with
    | Some e =>
        Chk_Equal (ErrMergeNeeded env) e ;;
        Fprintf_Stderr "Could not commit, optimistic concurrency failed." ;;
        return_
    | None =>
        if negb (noProgress env) then status_Done else mret tt
    end
  else
    ref ← db_WriteValue b;
    (if negb (noProgress env) then status_Clear else mret tt) ;;
    Fprintf_Stdout ("#" +:+ Hash_String env ref +:+ nl).

Definition main : M unit :=
  (if negb (stdin env && (flag_NArg =? 1)%nat) && negb (flag_NArg =? 2)%nat
   then flag_Usage ;; exit_Fail
   else mret tt) ;;
  (* start = time.Now() *)
  err ← cfg_GetDataset (flag_Arg (flag_NArg - 1));
  CheckErrorNoUsage err ;;
  defer DbClose (
    root ← load_root;
    src ← resolve root;
    ingest src).

(** ** One run of the program *)

Definition initial : State :=
  {| st_db := database env; st_trace := []; st_clock := 0%nat |}.

Definition run : Run := finish (main initial).

End Run.

(** The exit status the operating system sees: 0 when [main] returns, the
    code given to [os.Exit], 2 after a panic. *)
Definition exit_status (t : Termination) : Z :=
  match t with
  | Returned => 0
  | Exited c => c
  | Panicked _ => 2
  end.

(** The calls that write to the store. *)
Definition is_write (e : Event) : bool :=
  match e with
  | NewBlob _ | Commit _ _ | WriteValue _ => true
  | _ => false
  end.

Definition writes (tr : list Event) : list Event := List.filter is_write tr.

Definition is_commit (e : Event) : bool :=
  match e with Commit _ _ => true | _ => false end.

(** What went to standard output and to standard error, in order. *)
Definition stdout_of (tr : list Event) : list string :=
  omap (fun e => match e with Stdout s => Some s | _ => None end) tr.

Definition stderr_of (tr : list Event) : list string :=
  omap (fun e => match e with Stderr s => Some s | _ => None end) tr.


(* ===================================================================== *)
(** * The paths through main *)
(* ===================================================================== *)

(** The status lines of a stream read through the progress reader from
    [seen] bytes on, the clock having been read [k] times. *)
Fixpoint progress_lines (env : Env) (expectedLen seen : Z) (k : nat) (r : Stream)
  : list string :=
  match r with
  | [] => []
  | p :: r' =>
      let seen' := (seen + Z.of_nat (length p)) mod two64 in
      statusLine env expectedLen seen' (since_start env k)
        :: progress_lines env expectedLen seen' (S k) r'
  end.

(** The state with more calls on its trace. *)
Definition push (s : State) (evs : list Event) : State :=
  {| st_db := st_db s; st_trace := (st_trace s ++ evs)%list; st_clock := st_clock s |}.

(** The test of lines 103-104, [resp.StatusCode / 100] being 4 or 5. *)
Definition is_error_status (code : Z) : bool :=
  (Z.quot code 100 =? 4) || (Z.quot code 100 =? 5).

Section Paths.

Variable env : Env.

(** The dataset argument and the source argument of the command line. *)
Definition target : string := flag_Arg env (flag_NArg env - 1).
Definition source : string := flag_Arg env 0.

(** The test of line 47. *)
Definition bad_usage : bool :=
  negb (stdin env && (flag_NArg env =? 1)%nat) && negb (flag_NArg env =? 2)%nat.

(** The metadata a run finds stored: that of the head, or none. *)
Definition stored (root : Meta) : Prop :=
  match ds_head (database env) with
  | Some h => Unmarshal env h = Ok root
  | None => root = zeroMeta
  end.

(** The run gets as far as resolving its source, with [root] stored. *)
Record Resolving (root : Meta) : Prop := mkResolving {
  resolving_usage : bad_usage = false;
  resolving_dataset : GetDataset_err env target = None;
  resolving_stored : stored root
}.

(** The run is in HTTP mode and its request could be built. *)
Record HttpMode (root : Meta) (url : string) : Prop := mkHttpMode {
  http_resolving : Resolving root;
  http_not_stdin : stdin env = false;
  http_source : source = url;
  http_prefix : HasPrefix url "http" = true;
  http_request : NewRequest_err env url = None
}.

(** The run is in file mode. *)
Record FileMode (root : Meta) (path : string) : Prop := mkFileMode {
  file_resolving : Resolving root;
  file_not_stdin : stdin env = false;
  file_source : source = path;
  file_prefix : HasPrefix path "http" = false
}.

(** Source resolution that yields a descriptor, and the calls it makes. *)
Inductive Resolved (root : Meta)
  : Stream * Z * gmap string string -> list Event -> Prop :=
| from_stdin :
    stdin env = true ->
    Resolved root (os_Stdin env, -1, ∅) []
| from_http resp :
    stdin env = false ->
    HasPrefix source "http" = true ->
    NewRequest_err env source = None ->
    Do env (build_request root source) = Ok resp ->
    (StatusCode resp =? 304) = false ->
    is_error_status (StatusCode resp) = false ->
    Resolved root (Body resp, ContentLength resp, http_meta source resp ∅)
             [HttpNewRequest "GET" source; HttpDo (build_request root source)]
| from_file f size :
    stdin env = false ->
    HasPrefix source "http" = false ->
    os_Open env source = Ok f ->
    file_Stat f = Ok size ->
    Resolved root (file_data f, size, <["file" := source]> ∅)
             [OsOpen source; FileStat source].

(** Source resolution that ends the run, and the calls it makes; [main]
    returns in each case. *)
Inductive Unresolved (root : Meta) : list Event -> Prop :=
| bad_request e :
    stdin env = false ->
    HasPrefix source "http" = true ->
    NewRequest_err env source = Some e ->
    Unresolved root
      [HttpNewRequest "GET" source;
       Stderr ("Could not build http request for url " +:+ source
               +:+ ", error: " +:+ Error e +:+ nl)]
| fetch_failed e :
    stdin env = false ->
    HasPrefix source "http" = true ->
    NewRequest_err env source = None ->
    Do env (build_request root source) = Err e ->
    Unresolved root
      [HttpNewRequest "GET" source; HttpDo (build_request root source);
       Stderr ("Could not fetch url " +:+ source +:+ ", error: "
               +:+ Error e +:+ nl)]
| not_modified resp :
    stdin env = false ->
    HasPrefix source "http" = true ->
    NewRequest_err env source = None ->
    Do env (build_request root source) = Ok resp ->
    (StatusCode resp =? 304) = true ->
    Unresolved root
      [HttpNewRequest "GET" source; HttpDo (build_request root source);
       Stdout "Content unchanged since last fetch, no commit made"]
| error_status resp :
    stdin env = false ->
    HasPrefix source "http" = true ->
    NewRequest_err env source = None ->
    Do env (build_request root source) = Ok resp ->
    (StatusCode resp =? 304) = false ->
    is_error_status (StatusCode resp) = true ->
    Unresolved root
      [HttpNewRequest "GET" source; HttpDo (build_request root source);
       Stderr ("Could not fetch url " +:+ source +:+ ", error: "
               +:+ itoa (StatusCode resp) +:+ " (" +:+ Status resp +:+ ")" +:+ nl)]
| open_failed e :
    stdin env = false ->
    HasPrefix source "http" = false ->
    os_Open env source = Err e ->
    Unresolved root
      [OsOpen source;
       Stderr ("Invalid URL " +:+ source
               +:+ " - does not start with 'http' and isn't local file either. fopen error: "
               +:+ Error e)]
| stat_failed f e :
    stdin env = false ->
    HasPrefix source "http" = false ->
    os_Open env source = Ok f ->
    file_Stat f = Err e ->
    Unresolved root
      [OsOpen source; FileStat source;
       Stderr ("Could not stat file " +:+ source +:+ ": " +:+ Error e)].

(** The calls of [types.NewBlob] on the reader of lines 134-137. *)
Definition materialize (k : nat) (r : Stream) (contentLength : Z) : list Event :=
  ((if negb (noProgress env)
    then map StatusPrintf (progress_lines env contentLength 0 k r)
    else []) ++ [NewBlob (concat r)])%list.

(** Lines 134-157 on a descriptor, from the store [db] with the clock read
    [k] times: how they end, the store they leave, the calls they make. *)
Inductive Ingested (db : Database) (k : nat)
  : Stream * Z * gmap string string -> Termination -> Database -> list Event -> Prop :=
| meta_failed r len kv e :
    performCommit env = true ->
    CreateCommitMetaStruct_res env kv = Err e ->
    Ingested db k (r, len, kv) (Exited 1) db
      (materialize k r len ++
       [CreateCommitMetaStruct kv; Stderr ("error: " +:+ Error e +:+ nl)])%list
| conflict r len kv meta :
    performCommit env = true ->
    CreateCommitMetaStruct_res env kv = Ok meta ->
    Commit_err env db (Blob (concat r)) meta = Some (ErrMergeNeeded env) ->
    Ingested db k (r, len, kv) Returned db
      (materialize k r len ++
       [CreateCommitMetaStruct kv; Commit (Blob (concat r)) meta;
        Stderr "Could not commit, optimistic concurrency failed."])%list
| commit_failed r len kv meta e :
    performCommit env = true ->
    CreateCommitMetaStruct_res env kv = Ok meta ->
    Commit_err env db (Blob (concat r)) meta = Some e ->
    e <> ErrMergeNeeded env ->
    Ingested db k (r, len, kv) (Panicked (Error e)) db
      (materialize k r len ++
       [CreateCommitMetaStruct kv; Commit (Blob (concat r)) meta])%list
| committed r len kv meta :
    performCommit env = true ->
    CreateCommitMetaStruct_res env kv = Ok meta ->
    Commit_err env db (Blob (concat r)) meta = None ->
    let c := CommitOf (ds_head db) (Blob (concat r)) meta in
    Ingested db k (r, len, kv) Returned
      {| ds_head := Some c; db_values := c :: db_values db |}
      (materialize k r len ++
       [CreateCommitMetaStruct kv; Commit (Blob (concat r)) meta] ++
       (if negb (noProgress env) then [StatusDone] else []))%list
| written r len kv :
    performCommit env = false ->
    Ingested db k (r, len, kv) Returned
      {| ds_head := ds_head db; db_values := Blob (concat r) :: db_values db |}
      (materialize k r len ++
       [WriteValue (Blob (concat r))] ++
       (if negb (noProgress env) then [StatusClear] else []) ++
       [Stdout ("#" +:+ Hash_String env (Blob (concat r)) +:+ nl)])%list.

(** What the deferred [db.Close()] adds to the calls of a run. *)
Definition deferred (t : Termination) (e : Event) : list Event :=
  match t with
  | Exited _ => []
  | _ => [e]
  end.

(** Every way a run can go. *)
Inductive Path : Run -> Prop :=
| usage_failure :
    bad_usage = true ->
    Path {| run_end := Exited 1; run_db := database env;
            run_trace :=
              [Stderr ("Fetches a URL, file, or stdin into a noms blob" +:+ nl +:+ nl
                       +:+ "Usage: " +:+ os_Args0 env
                       +:+ " [--stdin?] [url-or-local-path?] [dataset]" +:+ nl);
               PrintDefaults] |}
| config_error e :
    bad_usage = false ->
    GetDataset_err env target = Some e ->
    Path {| run_end := Exited 1; run_db := database env;
            run_trace := [GetDataset target; Stderr ("error: " +:+ Error e +:+ nl)] |}
| decode_error h e :
    bad_usage = false ->
    GetDataset_err env target = None ->
    ds_head (database env) = Some h ->
    Unmarshal env h = Err e ->
    Path {| run_end := Returned; run_db := database env;
            run_trace :=
              [GetDataset target;
               Stderr ("Could not unmarshal head: " +:+ Error e +:+ nl);
               DbClose] |}
| unresolved root evs :
    Resolving root ->
    Unresolved root evs ->
    Path {| run_end := Returned; run_db := database env;
            run_trace := (GetDataset target :: evs ++ [DbClose])%list |}
| ingested root src evs t db' evs' :
    Resolving root ->
    Resolved root src evs ->
    Ingested (database env) 0 src t db' evs' ->
    Path {| run_end := t; run_db := db';
            run_trace := (GetDataset target :: evs ++ evs' ++ deferred t DbClose)%list |}.

End Paths.

(* ===================================================================== *)
(** * Observations on the calls of a run *)
(* ===================================================================== *)

Definition is_http_do (e : Event) : bool :=
  match e with HttpDo _ => true | _ => false end.

(** Calls to the network and calls to the file system. *)
Definition is_http_call (e : Event) : bool :=
  match e with HttpNewRequest _ _ | HttpDo _ => true | _ => false end.

Definition is_file_call (e : Event) : bool :=
  match e with OsOpen _ | FileStat _ => true | _ => false end.

(** The calls of lines 77-132 are to the network, to the file system and to
    the two output streams, and to nothing else. *)
Definition is_resolve_call (e : Event) : bool :=
  match e with
  | HttpNewRequest _ _ | HttpDo _ | OsOpen _ | FileStat _
  | Stdout _ | Stderr _ => true
  | _ => false
  end.

(** The calls of lines 134-157 are to the progress line, to the store and to
    the two output streams, and to nothing else. *)
Definition is_ingest_call (e : Event) : bool :=
  match e with
  | StatusPrintf _ | StatusDone | StatusClear | NewBlob _
  | CreateCommitMetaStruct _ | Commit _ _ | WriteValue _
  | Stdout _ | Stderr _ => true
  | _ => false
  end.

(** The state a step leaves, and the calls the step has added to [s]. *)
Definition state_of {A : Type} (res : Res A) : State :=
  match res with
  | Cont _ s => s
  | Stop _ s => s
  end.

Definition calls_from {A : Type} (s : State) (res : Res A) : list Event :=
  drop (length (st_trace s)) (st_trace (state_of res)).

(* ===================================================================== *)
(** * Sample runs *)
(* ===================================================================== *)

Module Sample.

(** A stand-in for [humanize.Bytes]: the count and the unit. *)
Definition human (n : Z) : string := itoa n +:+ " B".

(** A stand-in for the hash of a value. *)
Definition hash (v : Value) : string :=
  match v with
  | Blob data => "blob" +:+ itoa (Z.of_nat (length data))
  | CommitOf _ _ _ => "commit"
  end.

(** [uint64(f)] for an [f] that is no uint64, as the gc compiler does it on
    amd64: the infinities and the NaN all give 1<<63. *)
Definition amd64_uint64 (f : spec_float) : Z := 9223372036854775808.

Definition merge_needed : error := mkError "Dataset head is not ancestor of commit".

Definition example_url : string := "https://example.com/data".

Definition hello : list byte := [x68; x65; x6c; x6c; x6f].

(** The head a first fetch of [example_url] has left. *)
Definition fetched_once : Database :=
  let c := CommitOf None (Blob hello)
             (<["etag" := "v1"]> (<["url" := example_url]> ∅)) in
  {| ds_head := Some c; db_values := [c] |}.

(** What is stored of that fetch. *)
Definition stored_example : Meta :=
  {| Etag := "v1"; File := EmptyString; URL := example_url |}.

Definition empty_db : Database := {| ds_head := None; db_values := [] |}.

Definition not_modified_response : Response :=
  {| StatusCode := 304; Status := "304 Not Modified"; ContentLength := 0;
     Header := <["Etag" := "v1"]> ∅; Body := [] |}.

Definition not_found_response : Response :=
  {| StatusCode := 404; Status := "404 Not Found"; ContentLength := 9;
     Header := ∅; Body := [[x6e; x6f; x74; x20; x66; x6f; x75; x6e; x64]] |}.

Definition ok_response : Response :=
  {| StatusCode := 200; Status := "200 OK"; ContentLength := 5;
     Header := <["Etag" := "v1"]> ∅; Body := [hello] |}.

(** The surroundings of a run, by what varies between the samples. *)
Definition env_of (no_progress commit use_stdin : bool) (args : list string)
    (db : Database) (answer : result Response) (file : result OsFile)
    (commit_err : option error) : Env :=
  {| os_Args0 := "url-fetch";
     noProgress := no_progress;
     performCommit := commit;
     stdin := use_stdin;
     flag_Args := args;
     database := db;
     GetDataset_err := fun _ => None;
     Unmarshal := fun _ => Ok stored_example;
     CreateCommitMetaStruct_res := fun kv => Ok (<["date" := "2016-01-01"]> kv);
     Commit_err := fun _ _ _ => commit_err;
     ErrMergeNeeded := merge_needed;
     Hash_String := hash;
     NewRequest_err := fun _ => None;
     Do := fun _ => answer;
     os_Open := fun _ => file;
     os_Stdin := [hello];
     since_start := fun k => Z.of_nat (S k) * 1500000000;
     human_Bytes := human;
     uint64_of_other := amd64_uint64 |}.

Definition no_file : result OsFile := Err (mkError "no such file or directory").

(** Scenario B: a second fetch of the same URL, answered 304. *)
Definition refetch_unchanged : Env :=
  env_of false true false [example_url; "ds"] fetched_once
         (Ok not_modified_response) no_file None.

(** A first fetch, with nothing stored, answered 304 all the same. *)
Definition first_fetch_unchanged : Env :=
  env_of false true false [example_url; "ds"] empty_db
         (Ok not_modified_response) no_file None.

(** Scenario A: a first fetch, answered 200. *)
Definition first_fetch : Env :=
  env_of false true false [example_url; "ds"] empty_db
         (Ok ok_response) no_file None.

Definition fetch_not_found : Env :=
  env_of false true false [example_url; "ds"] empty_db
         (Ok not_found_response) no_file None.

(** Scenario C: standard input, written without a commit. *)
Definition stdin_write_only : Env :=
  env_of false false true ["ds"] empty_db (Ok ok_response) no_file None.

(** Standard input committed, the head having moved meanwhile. *)
Definition stdin_conflict : Env :=
  env_of true true true ["ds"] fetched_once (Ok ok_response) no_file
         (Some merge_needed).

(** Standard input committed, the store failing otherwise. *)
Definition stdin_commit_broken : Env :=
  env_of true true true ["ds"] fetched_once (Ok ok_response) no_file
         (Some (mkError "disk full")).

(** Scenario D: a local file that cannot be opened. *)
Definition missing_file : Env :=
  env_of false true false ["/no/such/file"; "ds"] empty_db
         (Ok ok_response) no_file None.

Definition unreadable_file : Env :=
  env_of false true false ["/data/blob.bin"; "ds"] empty_db (Ok ok_response)
         (Ok {| file_Stat := Err (mkError "stat failed"); file_data := [] |}) None.

Definition local_file : Env :=
  env_of false true false ["/data/blob.bin"; "ds"] empty_db (Ok ok_response)
         (Ok {| file_Stat := Ok 5; file_data := [hello] |}) None.

End Sample.

(* ===================================================================== *)
(** * More observations *)
(* ===================================================================== *)

Definition is_db_close (e : Event) : bool :=
  match e with DbClose => true | _ => false end.

Definition is_status_call (e : Event) : bool :=
  match e with StatusPrintf _ | StatusDone | StatusClear => true | _ => false end.

Definition is_new_blob (e : Event) : bool :=
  match e with NewBlob _ => true | _ => false end.

Definition is_write_value (e : Event) : bool :=
  match e with WriteValue _ => true | _ => false end.

Definition is_open (e : Event) : bool :=
  match e with OsOpen _ => true | _ => false end.

Definition is_meta_call (e : Event) : bool :=
  match e with CreateCommitMetaStruct _ => true | _ => false end.

(** The calls that only lines 134-157 make. *)
Definition is_ingest_only (e : Event) : bool :=
  match e with
  | StatusPrintf _ | StatusDone | StatusClear | NewBlob _
  | CreateCommitMetaStruct _ | Commit _ _ | WriteValue _ => true
  | _ => false
  end.

(** The run ended through [os.Exit]. *)
Definition is_exit (t : Termination) : bool :=
  match t with Exited _ => true | _ => false end.

(** [root.Meta], lines 62-68, filled from string fields by the names of its
    tags; a field that is absent leaves the empty string. *)
Definition root_of_fields (kv : gmap string string) : Meta :=
  {| Etag := default EmptyString (kv !! "etag");
     File := default EmptyString (kv !! "file");
     URL := default EmptyString (kv !! "url") |}.

(** The same surroundings with another command line. *)
Definition with_args (env : Env) (args : list string) : Env :=
  {| os_Args0 := os_Args0 env;
     noProgress := noProgress env;
     performCommit := performCommit env;
     stdin := stdin env;
     flag_Args := args;
     database := database env;
     GetDataset_err := GetDataset_err env;
     Unmarshal := Unmarshal env;
     CreateCommitMetaStruct_res := CreateCommitMetaStruct_res env;
     Commit_err := Commit_err env;
     ErrMergeNeeded := ErrMergeNeeded env;
     Hash_String := Hash_String env;
     NewRequest_err := NewRequest_err env;
     Do := Do env;
     os_Open := os_Open env;
     os_Stdin := os_Stdin env;
     since_start := since_start env;
     human_Bytes := human_Bytes env;
     uint64_of_other := uint64_of_other env |}.

(** The usage text of lines 41-44. *)
Definition usage_text (env : Env) : string :=
  "Fetches a URL, file, or stdin into a noms blob" +:+ nl +:+ nl
  +:+ "Usage: " +:+ os_Args0 env
  +:+ " [--stdin?] [url-or-local-path?] [dataset]" +:+ nl.

Module Broken.

(** The same surroundings with other answers from the collaborators that can
    refuse: the dataset, the decoding of the head, the commit metadata and
    the building of the request. *)
Definition refusing (env : Env) (ds_err : option error) (head : result Meta)
    (meta_err : option error) (req_err : option error) : Env :=
  {| os_Args0 := os_Args0 env;
     noProgress := noProgress env;
     performCommit := performCommit env;
     stdin := stdin env;
     flag_Args := flag_Args env;
     database := database env;
     GetDataset_err := fun _ => ds_err;
     Unmarshal := fun _ => head;
     CreateCommitMetaStruct_res := fun kv =>
       match meta_err with
       | Some e => Err e
       | None => CreateCommitMetaStruct_res env kv
       end;
     Commit_err := Commit_err env;
     ErrMergeNeeded := ErrMergeNeeded env;
     Hash_String := Hash_String env;
     NewRequest_err := fun _ => req_err;
     Do := Do env;
     os_Open := os_Open env;
     os_Stdin := os_Stdin env;
     since_start := since_start env;
     human_Bytes := human_Bytes env;
     uint64_of_other := uint64_of_other env |}.

Definition no_arguments : Env :=
  Sample.env_of false true false [] Sample.empty_db
    (Ok Sample.ok_response) Sample.no_file None.

Definition no_dataset : Env :=
  refusing Sample.first_fetch (Some (mkError "invalid dataset spec"))
           (Ok Sample.stored_example) None None.

Definition undecodable_head : Env :=
  refusing Sample.refetch_unchanged None (Err (mkError "not a struct")) None None.

Definition no_metadata : Env :=
  refusing Sample.first_fetch None (Ok Sample.stored_example)
           (Some (mkError "bad date")) None.

Definition no_request : Env :=
  refusing Sample.first_fetch None (Ok Sample.stored_example) None
           (Some (mkError "invalid URL escape")).

Definition unreachable : Env :=
  Sample.env_of false true false [Sample.example_url; "ds"] Sample.empty_db
    (Err (mkError "connection refused")) Sample.no_file None.

(** Standard input with a source argument that is not needed. *)
Definition stdin_two_arguments : Env :=
  Sample.env_of true false true ["ignored"; "ds"] Sample.empty_db
    (Ok Sample.ok_response) Sample.no_file None.

(** What the first fetch hands to [CreateCommitMetaStruct], and gets. *)
Definition fetched_fields : gmap string string :=
  <["etag" := "v1"]> (<["url" := Sample.example_url]> ∅).

Definition committed_meta : MetaStruct := <["date" := "2016-01-01"]> fetched_fields.

(** A local file written without a commit, and without progress. *)
Definition file_write_only : Env :=
  Sample.env_of true false false ["/data/blob.bin"; "ds"] Sample.fetched_once
    (Ok Sample.ok_response)
    (Ok {| file_Stat := Ok 5; file_data := [Sample.hello] |}) None.

(** An answer with a status that is neither 304 nor an error. *)
Definition redirect_response : Response :=
  {| StatusCode := 301; Status := "301 Moved Permanently"; ContentLength := -1;
     Header := ∅; Body := [Sample.hello] |}.

Definition fetch_redirect : Env :=
  Sample.env_of false true false [Sample.example_url; "ds"] Sample.empty_db
    (Ok redirect_response) Sample.no_file None.

End Broken.

(* ===================================================================== *)
(** * The run follows one of the paths *)
(* ===================================================================== *)

Ltac unfold_monad :=
  unfold mbind, M_bind, mret, M_ret, emit, stop, return_, get_db, set_db,
    Fprintf_Stderr, Fprintf_Stdout, exit_Fail, push.

Lemma push_push s evs evs' : push (push s evs) evs' = push s (evs ++ evs').
Proof. unfold push; simpl. by rewrite <- app_assoc. Qed.

Lemma push_nil s : push s [] = s.
Proof. destruct s; unfold push; simpl. by rewrite app_nil_r. Qed.

Lemma bind_Cont {A B} (m : M A) (f : A -> M B) s a s' :
  m s = Cont a s' -> (m ≫= f) s = f a s'.
Proof. intros H. unfold mbind, M_bind. by rewrite H. Qed.

Lemma bind_Stop {A B} (m : M A) (f : A -> M B) s t s' :
  m s = Stop t s' -> (m ≫= f) s = Stop t s'.
Proof. intros H. unfold mbind, M_bind. by rewrite H. Qed.

Lemma progress_Read_run env expectedLen r : forall seen s,
  progress_Read (getStatusPrinter env expectedLen) seen r s =
  Cont (concat r)
       {| st_db := st_db s;
          st_trace := st_trace s ++
                      map StatusPrintf
                          (progress_lines env expectedLen seen (st_clock s) r);
          st_clock := (st_clock s + length r)%nat |}.
Proof.
  induction r as [|p r IH]; intros seen s; simpl.
  - unfold mret, M_ret. destruct s; simpl. by rewrite app_nil_r, Nat.add_0_r.
  - unfold mbind, M_bind, getStatusPrinter, time_since_start, status_Printf, emit.
    simpl. rewrite IH. simpl. unfold mret, M_ret.
    rewrite <- app_assoc. simpl. by rewrite Nat.add_succ_r.
Qed.

(** [types.NewBlob] on the reader of lines 134-137 reads the whole stream and
    makes the blob of its bytes. *)
Lemma NewBlob_run env r len s :
  let rd : Reader := (r, None) in
  types_NewBlob
    (if negb (noProgress env)
     then progressreader_New rd (getStatusPrinter env len) else rd) s =
  Cont (Blob (concat r))
       {| st_db := st_db s;
          st_trace := st_trace s ++ materialize env (st_clock s) r len;
          st_clock := if negb (noProgress env)
                      then (st_clock s + length r)%nat else st_clock s |}.
Proof.
  unfold types_NewBlob, materialize, progressreader_New.
  destruct (noProgress env); simpl.
  - unfold_monad. by simpl.
  - unfold mbind, M_bind. rewrite progress_Read_run. unfold_monad. simpl.
    by rewrite <- app_assoc.
Qed.

Lemma resolve_cases env root s :
  (exists src evs, Resolved env root src evs /\
                   resolve env root s = Cont src (push s evs)) \/
  (exists evs, Unresolved env root evs /\
               resolve env root s = Stop Returned (push s evs)).
Proof.
  unfold resolve. fold (source env).
  destruct (stdin env) eqn:Hstdin.
  { left. eexists _, []. split; [by constructor|]. by rewrite push_nil. }
  destruct (HasPrefix (source env) "http") eqn:Hpre.
  - unfold http_NewRequest, http_Do. unfold_monad. simpl.
    destruct (NewRequest_err env (source env)) as [e|] eqn:Hreq; simpl.
    { right. eexists. split; [by eapply bad_request|]. by rewrite <- app_assoc. }
    destruct (Do env (build_request root (source env))) as [resp|e] eqn:Hdo; simpl.
    2:{ right. eexists. split; [by eapply fetch_failed|]. by rewrite <- !app_assoc. }
    destruct (StatusCode resp =? 304) eqn:H304; simpl.
    { right. eexists. split; [by eapply not_modified|]. by rewrite <- !app_assoc. }
    fold (is_error_status (StatusCode resp)).
    destruct (is_error_status (StatusCode resp)) eqn:Hcls; simpl.
    { right. eexists. split; [by eapply error_status|]. by rewrite <- !app_assoc. }
    left. eexists _, _. split; [by eapply from_http|]. by rewrite <- !app_assoc.
  - unfold os_Open_, f_Stat. unfold_monad. simpl.
    destruct (os_Open env (source env)) as [f|e] eqn:Hopen; simpl.
    2:{ right. eexists. split; [by eapply open_failed|]. by rewrite <- !app_assoc. }
    destruct (file_Stat f) as [size|e] eqn:Hstat; simpl.
    2:{ right. eexists. split; [by eapply stat_failed|]. by rewrite <- !app_assoc. }
    left. eexists _, _. split; [by eapply from_file|]. by rewrite <- !app_assoc.
Qed.

Lemma ingest_cases env src s :
  exists t db' evs,
    Ingested env (st_db s) (st_clock s) src t db' evs /\
    finish (ingest env src s) =
    {| run_end := t; run_db := db'; run_trace := st_trace s ++ evs |}.
Proof.
  destruct src as [[r len] kv]. unfold ingest.
  rewrite (bind_Cont _ _ _ _ _ (NewBlob_run env r len s)).
  destruct (performCommit env) eqn:Hcommit.
  - unfold spec_CreateCommitMetaStruct, db_Commit, CheckErrorNoUsage, Chk_Equal,
      status_Done.
    unfold_monad. simpl.
    destruct (CreateCommitMetaStruct_res env kv) as [meta|e] eqn:Hmeta; simpl.
    2:{ eexists _, _, _. split; [by eapply meta_failed|]. simpl.
        by rewrite <- !app_assoc. }
    destruct (Commit_err env (st_db s) (Blob (concat r)) meta) as [e|] eqn:Herr; simpl.
    + destruct (decide (ErrMergeNeeded env = e)) as [<-|Hne]; simpl.
      * eexists _, _, _. split; [by eapply conflict|]. simpl.
        by rewrite <- !app_assoc.
      * eexists _, _, _. split; [by eapply commit_failed|]. simpl.
        by rewrite <- !app_assoc.
    + eexists _, _, _. split; [by eapply committed|]. simpl.
      destruct (noProgress env); simpl; by rewrite <- !app_assoc.
  - unfold db_WriteValue, status_Clear. unfold_monad. simpl.
    eexists _, _, _. split; [by eapply written|]. simpl.
    destruct (noProgress env); simpl; by rewrite <- !app_assoc.
Qed.

Lemma finish_defer (body : M unit) e s :
  finish (defer e body s) =
  let r := finish (body s) in
  {| run_end := run_end r; run_db := run_db r;
     run_trace := run_trace r ++ deferred (run_end r) e |}.
Proof.
  unfold defer, emit. destruct (body s) as [[] s'|t s']; simpl; [done|].
  destruct t; simpl; by rewrite ?app_nil_r.
Qed.

Lemma load_root_cases env s :
  st_db s = database env ->
  (exists root, stored env root /\ load_root env s = Cont root s) \/
  (exists h e, ds_head (database env) = Some h /\ Unmarshal env h = Err e /\
               load_root env s =
               Stop Returned
                 (push s [Stderr ("Could not unmarshal head: " +:+ Error e +:+ nl)])).
Proof.
  destruct s as [db tr k]; simpl. intros ->.
  unfold load_root, stored. unfold_monad. simpl.
  destruct (ds_head (database env)) as [h|]; [|by left; eexists].
  destruct (Unmarshal env h) as [root|e] eqn:Hun; simpl.
  - left. by eexists.
  - right. by exists h, e.
Qed.

Lemma cfg_GetDataset_run env t s :
  cfg_GetDataset env t s = Cont (GetDataset_err env t) (push s [GetDataset t]).
Proof. reflexivity. Qed.

Lemma CheckErrorNoUsage_Some e s :
  CheckErrorNoUsage (Some e) s =
  Stop (Exited 1) (push s [Stderr ("error: " +:+ Error e +:+ nl)]).
Proof. reflexivity. Qed.

Lemma CheckErrorNoUsage_None s : CheckErrorNoUsage None s = Cont tt s.
Proof. reflexivity. Qed.

(** Every run follows one of the paths. *)
Lemma run_path env : Path env (run env).
Proof.
  unfold run, main. fold (bad_usage env). fold (target env).
  destruct (bad_usage env) eqn:Husage.
  { unfold flag_Usage, initial. unfold_monad. simpl. by apply usage_failure. }
  rewrite (bind_Cont (mret tt) _ _ tt _ eq_refl).
  rewrite (bind_Cont _ _ _ _ _ (cfg_GetDataset_run env _ _)).
  destruct (GetDataset_err env (target env)) as [e|] eqn:Hds.
  { rewrite (bind_Stop _ _ _ _ _ (CheckErrorNoUsage_Some e _)). simpl.
    by apply config_error. }
  rewrite (bind_Cont _ _ _ _ _ (CheckErrorNoUsage_None _)).
  rewrite finish_defer.
  set (s1 := push (initial env) [GetDataset (target env)]).
  destruct (load_root_cases env s1 eq_refl)
    as [(root & Hroot & Hload)|(h & e & Hh & He & Hload)].
  2:{ rewrite (bind_Stop _ _ _ _ _ Hload). simpl. by eapply decode_error. }
  rewrite (bind_Cont _ _ _ _ _ Hload).
  assert (Hres : Resolving env root) by done.
  destruct (resolve_cases env root s1)
    as [(src & evs & Hsrc & Hrun)|(evs & Hun & Hrun)].
  2:{ rewrite (bind_Stop _ _ _ _ _ Hrun). simpl. by eapply unresolved. }
  rewrite (bind_Cont _ _ _ _ _ Hrun).
  destruct (ingest_cases env src (push s1 evs)) as (t & db' & evs' & Hing & Hfin).
  rewrite Hfin. simpl. rewrite <- app_assoc.
  by eapply ingested.
Qed.

(* ===================================================================== *)
(** * Reading the paths *)
(* ===================================================================== *)

Lemma stored_unique env root root' : stored env root -> stored env root' -> root = root'.
Proof. unfold stored. destruct (ds_head (database env)); congruence. Qed.

Lemma Resolving_unique env root root' :
  Resolving env root -> Resolving env root' -> root = root'.
Proof. intros [_ _ H] [_ _ H']. eapply stored_unique; eauto. Qed.

Lemma is_error_status_range code :
  is_error_status code = true <-> 400 <= code <= 599.
Proof.
  unfold is_error_status. rewrite orb_true_iff, !Z.eqb_eq.
  Z.to_euclidean_division_equations. lia.
Qed.

Lemma materialize_calls env k r len :
  Forall (fun e => is_ingest_call e = true) (materialize env k r len).
Proof.
  unfold materialize. apply Forall_app. split; [|by constructor].
  destruct (negb (noProgress env)); [|constructor].
  apply Forall_fmap, Forall_true. done.
Qed.

Lemma Ingested_calls env db k src t db' evs :
  Ingested env db k src t db' evs ->
  Forall (fun e => is_ingest_call e = true) evs.
Proof.
  intros H. destruct H; rewrite ?Forall_app; repeat split;
    try apply materialize_calls; try (destruct (negb (noProgress env)));
    repeat (constructor; try done).
Qed.

Ltac path_side :=
  first [ eassumption | by apply Z.eqb_eq | by apply Z.eqb_neq | reflexivity ].

(** In HTTP mode the run sends its request and goes one of four ways with
    the answer. *)
Lemma http_mode_paths env root url :
  HttpMode env root url ->
  let req := build_request root url in
  let sent := [GetDataset (target env); HttpNewRequest "GET" url; HttpDo req] in
  (exists e, Do env req = Err e /\
     run env =
     {| run_end := Returned; run_db := database env;
        run_trace := sent ++
          [Stderr ("Could not fetch url " +:+ url +:+ ", error: " +:+ Error e +:+ nl);
           DbClose] |}) \/
  (exists resp, Do env req = Ok resp /\ StatusCode resp = 304 /\
     run env =
     {| run_end := Returned; run_db := database env;
        run_trace := sent ++
          [Stdout "Content unchanged since last fetch, no commit made"; DbClose] |}) \/
  (exists resp, Do env req = Ok resp /\ StatusCode resp <> 304 /\
     is_error_status (StatusCode resp) = true /\
     run env =
     {| run_end := Returned; run_db := database env;
        run_trace := sent ++
          [Stderr ("Could not fetch url " +:+ url +:+ ", error: "
                   +:+ itoa (StatusCode resp) +:+ " (" +:+ Status resp +:+ ")" +:+ nl);
           DbClose] |}) \/
  (exists resp t db' evs, Do env req = Ok resp /\ StatusCode resp <> 304 /\
     is_error_status (StatusCode resp) = false /\
     Ingested env (database env) 0
       (Body resp, ContentLength resp, http_meta url resp ∅) t db' evs /\
     run env =
     {| run_end := t; run_db := db';
        run_trace := sent ++ evs ++ deferred t DbClose |}).
Proof.
  intros [Hres Hstdin <- Hpre Hreq]. simpl.
  destruct (run_path env) as [Hu|e Hu Hd|h e Hu Hd Hh He|root' evs Hres' Hun
                             |root' src evs t db' evs' Hres' Hsrc Hing].
  - destruct Hres; congruence.
  - destruct Hres; congruence.
  - destruct Hres as [_ _ Hst]. unfold stored in Hst. rewrite Hh in Hst. congruence.
  - rewrite <- (Resolving_unique _ _ _ Hres Hres') in Hun.
    destruct Hun; try congruence.
    + left. eexists. by split_and!.
    + right; left. eexists. split_and!; path_side.
    + right; right; left. eexists. split_and!; path_side.
  - rewrite <- (Resolving_unique _ _ _ Hres Hres') in Hsrc.
    destruct Hsrc; try congruence.
    right; right; right. eexists _, _, _, _. split_and!; path_side.
Qed.

(** In file mode the run opens the path and goes one of three ways. *)
Lemma file_mode_paths env root path :
  FileMode env root path ->
  (exists e, os_Open env path = Err e /\
     run env =
     {| run_end := Returned; run_db := database env;
        run_trace :=
          [GetDataset (target env); OsOpen path;
           Stderr ("Invalid URL " +:+ path
                   +:+ " - does not start with 'http' and isn't local file either. fopen error: "
                   +:+ Error e);
           DbClose] |}) \/
  (exists f e, os_Open env path = Ok f /\ file_Stat f = Err e /\
     run env =
     {| run_end := Returned; run_db := database env;
        run_trace :=
          [GetDataset (target env); OsOpen path; FileStat path;
           Stderr ("Could not stat file " +:+ path +:+ ": " +:+ Error e);
           DbClose] |}) \/
  (exists f size t db' evs, os_Open env path = Ok f /\ file_Stat f = Ok size /\
     Ingested env (database env) 0
       (file_data f, size, <["file" := path]> ∅) t db' evs /\
     run env =
     {| run_end := t; run_db := db';
        run_trace := [GetDataset (target env); OsOpen path; FileStat path]
                     ++ evs ++ deferred t DbClose |}).
Proof.
  intros [Hres Hstdin <- Hpre].
  destruct (run_path env) as [Hu|e Hu Hd|h e Hu Hd Hh He|root' evs Hres' Hun
                             |root' src evs t db' evs' Hres' Hsrc Hing].
  - destruct Hres; congruence.
  - destruct Hres; congruence.
  - destruct Hres as [_ _ Hst]. unfold stored in Hst. rewrite Hh in Hst. congruence.
  - destruct Hun; try congruence.
    + left. eexists. split_and!; path_side.
    + right; left. eexists _, _. split_and!; path_side.
  - destruct Hsrc; try congruence.
    right; right. eexists _, _, _, _, _. split_and!; path_side.
Qed.

Lemma Resolved_calls env root src evs :
  Resolved env root src evs -> Forall (fun e => is_resolve_call e = true) evs.
Proof. intros H. destruct H; repeat (constructor; try done). Qed.

Lemma Unresolved_calls env root evs :
  Unresolved env root evs -> Forall (fun e => is_resolve_call e = true) evs.
Proof. intros H. destruct H; repeat (constructor; try done). Qed.

Lemma filter_none {A} (f : A -> bool) (l : list A) :
  Forall (fun x => f x = false) l -> List.filter f l = [].
Proof. induction 1 as [|x l Hx _ IH]; simpl; [done|]. by rewrite Hx. Qed.

Lemma omap_none {A B} (f : A -> option B) (l : list A) :
  Forall (fun x => f x = None) l -> omap f l = [].
Proof. induction 1 as [|x l Hx _ IH]; simpl; [done|]. by rewrite Hx. Qed.

Lemma ingest_no_http_do evs :
  Forall (fun e => is_ingest_call e = true) evs -> List.filter is_http_do evs = [].
Proof.
  intros H. apply filter_none. eapply Forall_impl; [exact H|].
  by intros [] ?.
Qed.

(* ===================================================================== *)
(** * HTTP mode *)
(* ===================================================================== *)

(** C1. In HTTP mode, when the server answers 304 Not Modified, the run
    writes nothing to the store (no blob is materialized, nothing is
    committed, no value is written, the store is as it was), says on
    standard output that the content is unchanged, and ends successfully. *)
Theorem not_modified_performs_no_write env root url resp :
  HttpMode env root url ->
  Do env (build_request root url) = Ok resp ->
  StatusCode resp = 304 ->
  writes (run_trace (run env)) = [] /\
  run_db (run env) = database env /\
  stdout_of (run_trace (run env)) =
    ["Content unchanged since last fetch, no commit made"] /\
  stderr_of (run_trace (run env)) = [] /\
  run_end (run env) = Returned /\
  exit_status (run_end (run env)) = 0.
Proof.
  intros Hmode Hdo H304.
  destruct (http_mode_paths env root url Hmode)
    as [(e & He & _)|[(resp' & Hr & _ & Hrun)|[(resp' & Hr & Hne & _)
       |(resp' & t & db' & evs & Hr & Hne & _)]]]; try congruence.
  by rewrite Hrun.
Qed.

(** C5. In HTTP mode exactly one request is sent, a GET of the requested
    URL, and it carries the If-None-Match header if and only if the stored
    metadata's URL is the requested URL and a non-empty etag is stored; the
    header then carries the stored etag. *)
Theorem precondition_header_iff env root url :
  HttpMode env root url ->
  exists req,
    List.filter is_http_do (run_trace (run env)) = [HttpDo req] /\
    req_Method req = "GET" /\
    req_URL req = url /\
    (is_Some (req_Header req !! "If-None-Match") <->
     URL root = url /\ Etag root <> EmptyString) /\
    (forall v, req_Header req !! "If-None-Match" = Some v -> v = Etag root).
Proof.
  intros Hmode. exists (build_request root url). split_and!; try done.
  - destruct (http_mode_paths env root url Hmode)
      as [(e & _ & Hrun)|[(resp & _ & _ & Hrun)|[(resp & _ & _ & _ & Hrun)
         |(resp & t & db' & evs & _ & _ & _ & Hing & Hrun)]]];
      rewrite Hrun; try done.
    simpl. rewrite List.filter_app, (ingest_no_http_do evs) by by eapply Ingested_calls.
    by destruct t.
  - unfold build_request. destruct (decide (URL root = url ∧ Etag root ≠ EmptyString)); simpl.
    + rewrite lookup_insert_eq. by split.
    + rewrite lookup_empty. split; [by intros []|done].
  - intros v. unfold build_request.
    destruct (decide (URL root = url ∧ Etag root ≠ EmptyString)); simpl.
    + rewrite lookup_insert_eq. congruence.
    + by rewrite lookup_empty.
Qed.

(** C6. In HTTP mode, when the status of the answer is in the range 400 to
    599, the run ends at once with a message on standard error that carries
    the URL and the status, and nothing is written to the store. *)
Theorem error_status_aborts env root url resp :
  HttpMode env root url ->
  Do env (build_request root url) = Ok resp ->
  400 <= StatusCode resp <= 599 ->
  run_trace (run env) =
    [GetDataset (target env); HttpNewRequest "GET" url;
     HttpDo (build_request root url);
     Stderr ("Could not fetch url " +:+ url +:+ ", error: "
             +:+ itoa (StatusCode resp) +:+ " (" +:+ Status resp +:+ ")" +:+ nl);
     DbClose] /\
  run_end (run env) = Returned /\
  writes (run_trace (run env)) = [] /\
  run_db (run env) = database env.
Proof.
  intros Hmode Hdo Hrange.
  apply is_error_status_range in Hrange.
  destruct (http_mode_paths env root url Hmode)
    as [(e & He & _)|[(resp' & Hr & H304 & _)|[(resp' & Hr & _ & _ & Hrun)
       |(resp' & t & db' & evs & Hr & _ & Hcls & _)]]]; try congruence.
  - assert (resp' = resp) as -> by congruence.
    rewrite H304 in Hrange. discriminate.
  - assert (resp' = resp) as -> by congruence. by rewrite Hrun.
Qed.

(** C10. In HTTP mode a 304 answer ends the run as content unchanged, with
    nothing written, also when no If-None-Match header was sent (the stored
    URL is another one, or no etag is stored): only the status decides. *)
Theorem not_modified_without_precondition env root url resp :
  HttpMode env root url ->
  ~ (URL root = url /\ Etag root <> EmptyString) ->
  Do env (build_request root url) = Ok resp ->
  StatusCode resp = 304 ->
  req_Header (build_request root url) !! "If-None-Match" = None /\
  run_trace (run env) =
    [GetDataset (target env); HttpNewRequest "GET" url;
     HttpDo (build_request root url);
     Stdout "Content unchanged since last fetch, no commit made"; DbClose] /\
  writes (run_trace (run env)) = [] /\
  run_db (run env) = database env /\
  run_end (run env) = Returned.
Proof.
  intros Hmode Hpre Hdo H304. split.
  { unfold build_request. by rewrite decide_False. }
  destruct (http_mode_paths env root url Hmode)
    as [(e & He & _)|[(resp' & Hr & _ & Hrun)|[(resp' & Hr & Hne & _)
       |(resp' & t & db' & evs & Hr & Hne & _)]]]; try congruence.
  by rewrite Hrun.
Qed.

(* ===================================================================== *)
(** * Observing the calls of the paths *)
(* ===================================================================== *)

Lemma materialize_shape env k r len :
  Forall (fun e => match e with StatusPrintf _ | NewBlob _ => True | _ => False end)
         (materialize env k r len).
Proof.
  unfold materialize. apply Forall_app. split; [|by constructor].
  destruct (negb (noProgress env)); [|constructor].
  apply Forall_fmap, Forall_true. done.
Qed.

Lemma materialize_commits env k r len :
  List.filter is_commit (materialize env k r len) = [].
Proof.
  apply filter_none. eapply Forall_impl; [apply materialize_shape|]. by intros [] ?.
Qed.

Lemma materialize_stdout env k r len : stdout_of (materialize env k r len) = [].
Proof.
  apply omap_none. eapply Forall_impl; [apply materialize_shape|]. by intros [] ?.
Qed.

Lemma materialize_stderr env k r len : stderr_of (materialize env k r len) = [].
Proof.
  apply omap_none. eapply Forall_impl; [apply materialize_shape|]. by intros [] ?.
Qed.

Lemma materialize_written env k r len b : WriteValue b ∉ materialize env k r len.
Proof.
  intros Hin. pose proof (materialize_shape env k r len) as H.
  rewrite Forall_forall in H. by apply H in Hin.
Qed.

Lemma resolve_no_commit evs :
  Forall (fun e => is_resolve_call e = true) evs -> List.filter is_commit evs = [].
Proof.
  intros H. apply filter_none. eapply Forall_impl; [exact H|]. by intros [] ?.
Qed.

Lemma resolve_no_write evs b :
  Forall (fun e => is_resolve_call e = true) evs -> WriteValue b ∉ evs.
Proof. intros H Hin. rewrite Forall_forall in H. by apply H in Hin. Qed.

Lemma Resolved_stdout env root src evs : Resolved env root src evs -> stdout_of evs = [].
Proof. by intros []. Qed.

Lemma Resolved_stderr env root src evs : Resolved env root src evs -> stderr_of evs = [].
Proof. by intros []. Qed.

Lemma elem_of_filter_bool {A} (f : A -> bool) (x : A) (l : list A) :
  x ∈ l -> f x = true -> x ∈ List.filter f l.
Proof.
  intros Hin Hf. apply list_elem_of_In, filter_In. split; [|done].
  by apply list_elem_of_In.
Qed.

Lemma stdout_of_app l l' :
  stdout_of (l ++ l') = (stdout_of l ++ stdout_of l')%list.
Proof. apply omap_app. Qed.

Lemma stderr_of_app l l' :
  stderr_of (l ++ l') = (stderr_of l ++ stderr_of l')%list.
Proof. apply omap_app. Qed.

(* ===================================================================== *)
(** * Commit mode and write-only mode *)
(* ===================================================================== *)

(** C2. When the commit the run attempts fails, nothing is committed and the
    commit is attempted once only; if the failure is the optimistic
    concurrency conflict the run ends reporting it, and if it is any other
    failure the run is fatal and the failure is reported verbatim. *)
Theorem commit_failure_is_reported env b meta e :
  Commit b meta ∈ run_trace (run env) ->
  Commit_err env (database env) b meta = Some e ->
  run_db (run env) = database env /\
  List.filter is_commit (run_trace (run env)) = [Commit b meta] /\
  (e = ErrMergeNeeded env ->
   run_end (run env) = Returned /\
   stderr_of (run_trace (run env)) =
     ["Could not commit, optimistic concurrency failed."]) /\
  (e <> ErrMergeNeeded env ->
   run_end (run env) = Panicked (Error e) /\
   exit_status (run_end (run env)) <> 0).
Proof.
  intros Hin Herr.
  apply (elem_of_filter_bool is_commit) in Hin; [|done].
  destruct (run_path env) as [Hu|e' Hu Hd|h e' Hu Hd Hh He|root evs Hres Hun
                             |root src evs t db' evs' Hres Hsrc Hing];
    simpl in Hin |- *.
  - by apply elem_of_nil in Hin.
  - by apply elem_of_nil in Hin.
  - by apply elem_of_nil in Hin.
  - rewrite List.filter_app, (resolve_no_commit evs) in Hin
      by by eapply Unresolved_calls.
    by apply elem_of_nil in Hin.
  - pose proof (Resolved_stderr _ _ _ _ Hsrc) as Hnoerr.
    rewrite !List.filter_app, (resolve_no_commit evs) in Hin
      by by eapply Resolved_calls.
    rewrite !List.filter_app, (resolve_no_commit evs) by by eapply Resolved_calls.
    rewrite !stderr_of_app, Hnoerr.
    destruct Hing as [r len kv e' Hc Hm|r len kv meta' Hc Hm Hce
                     |r len kv meta' e' Hc Hm Hce Hne|r len kv meta' Hc Hm Hce
                     |r len kv Hc];
      rewrite ?List.filter_app, ?materialize_commits in Hin;
      rewrite ?List.filter_app, ?stderr_of_app, ?materialize_commits,
        ?materialize_stderr;
      simpl in Hin |- *.
    + by apply elem_of_nil in Hin.
    + apply list_elem_of_singleton in Hin. injection Hin as -> ->.
      assert (e = ErrMergeNeeded env) as -> by congruence.
      split_and!; done.
    + apply list_elem_of_singleton in Hin. injection Hin as -> ->.
      assert (e' = e) as -> by congruence.
      split_and!; done.
    + destruct (negb (noProgress env)); simpl in Hin;
        apply list_elem_of_singleton in Hin; injection Hin as -> ->; congruence.
    + destruct (negb (noProgress env)); simpl in Hin; by apply elem_of_nil in Hin.
Qed.

(** Without [--commit]: what no run does, and what a write entails. *)
Lemma write_only_frame env :
  performCommit env = false ->
  ds_head (run_db (run env)) = ds_head (database env) /\
  Forall (fun e => match e with
                   | Commit _ _ | CreateCommitMetaStruct _ => False
                   | _ => True
                   end) (run_trace (run env)) /\
  (forall b, WriteValue b ∈ run_trace (run env) ->
     run_end (run env) = Returned /\
     (exists data, b = Blob data) /\
     run_db (run env) =
       {| ds_head := ds_head (database env);
          db_values := b :: db_values (database env) |} /\
     stdout_of (run_trace (run env)) = ["#" +:+ Hash_String env b +:+ nl]).
Proof.
  intros Hmode.
  destruct (run_path env) as [Hu|e' Hu Hd|h e' Hu Hd Hh He|root evs Hres Hun
                             |root src evs t db' evs' Hres Hsrc Hing];
    simpl.
  - split_and!; [done|by repeat constructor|].
    intros b Hin. by repeat (apply elem_of_cons in Hin as [?|Hin]; [done|]);
      apply elem_of_nil in Hin.
  - split_and!; [done|by repeat constructor|].
    intros b Hin. by repeat (apply elem_of_cons in Hin as [?|Hin]; [done|]);
      apply elem_of_nil in Hin.
  - split_and!; [done|by repeat constructor|].
    intros b Hin. by repeat (apply elem_of_cons in Hin as [?|Hin]; [done|]);
      apply elem_of_nil in Hin.
  - pose proof (Unresolved_calls _ _ _ Hun) as Hcalls.
    split_and!; [done| |].
    + constructor; [done|]. apply Forall_app. split; [|by repeat constructor].
      eapply Forall_impl; [exact Hcalls|]. by intros [] ?.
    + intros b Hin. exfalso.
      apply elem_of_cons in Hin as [?|Hin]; [done|].
      apply elem_of_app in Hin as [Hin|Hin]; [by eapply resolve_no_write|].
      by repeat (apply elem_of_cons in Hin as [?|Hin]; [done|]);
        apply elem_of_nil in Hin.
  - pose proof (Resolved_calls _ _ _ _ Hsrc) as Hcalls.
    pose proof (Resolved_stdout _ _ _ _ Hsrc) as Hnoout.
    destruct Hing as [r len kv e' Hc Hm|r len kv meta' Hc Hm Hce
                     |r len kv meta' e' Hc Hm Hce Hne|r len kv meta' Hc Hm Hce
                     |r len kv Hc]; try congruence.
    split_and!; [done| |].
    + constructor; [done|]. rewrite !Forall_app. split_and!.
      * eapply Forall_impl; [exact Hcalls|]. by intros [] ?.
      * eapply Forall_impl; [apply materialize_shape|]. by intros [] ?.
      * by repeat constructor.
      * destruct (negb (noProgress env)); by repeat constructor.
      * by repeat constructor.
      * by repeat constructor.
    + intros b Hin.
      assert (b = Blob (concat r)) as ->.
      { apply elem_of_cons in Hin as [?|Hin]; [done|].
        apply elem_of_app in Hin as [Hin|Hin]; [by eapply resolve_no_write in Hin|].
        rewrite !elem_of_app in Hin.
        destruct Hin as [[Hin|[Hin|[Hin|Hin]]]|Hin].
        - by apply materialize_written in Hin.
        - apply list_elem_of_singleton in Hin. congruence.
        - destruct (negb (noProgress env)); [|by apply elem_of_nil in Hin].
          by apply list_elem_of_singleton in Hin.
        - by apply list_elem_of_singleton in Hin.
        - by apply list_elem_of_singleton in Hin. }
      split_and!; [done|by eexists|done|].
      rewrite !stdout_of_app, Hnoout, materialize_stdout. simpl.
      by destruct (negb (noProgress env)).
Qed.

(** Source resolution that yields a descriptor is one of the three
    resolutions, and adds its calls to the trace. *)
Lemma resolve_Cont_inv env root s src s' :
  resolve env root s = Cont src s' ->
  exists evs, Resolved env root src evs /\ s' = push s evs.
Proof.
  intros Hrun.
  destruct (resolve_cases env root s)
    as [(src0 & evs & Hsrc & Heq)|(evs & _ & Heq)];
    rewrite Heq in Hrun; [|discriminate Hrun].
  injection Hrun as -> <-. by exists evs.
Qed.

(** A run whose source resolves is the rest of [main], lines 134-157, on the
    descriptor, followed by the deferred [db.Close()]. *)
Lemma run_of_descriptor env root src s' :
  Resolving env root ->
  resolve env root (push (initial env) [GetDataset (target env)]) = Cont src s' ->
  run env =
    {| run_end := run_end (finish (ingest env src s'));
       run_db := run_db (finish (ingest env src s'));
       run_trace := run_trace (finish (ingest env src s'))
                    ++ deferred (run_end (finish (ingest env src s'))) DbClose |}.
Proof.
  intros [Husage Hds Hst] Hrun.
  unfold run, main. fold (bad_usage env). fold (target env). rewrite Husage.
  rewrite (bind_Cont (mret tt) _ _ tt _ eq_refl).
  rewrite (bind_Cont _ _ _ _ _ (cfg_GetDataset_run env _ _)). rewrite Hds.
  rewrite (bind_Cont _ _ _ _ _ (CheckErrorNoUsage_None _)).
  rewrite finish_defer.
  destruct (load_root_cases env (push (initial env) [GetDataset (target env)]) eq_refl)
    as [(root' & Hroot' & Hload)|(h & e & Hh & He & _)].
  2:{ unfold stored in Hst. rewrite Hh in Hst. congruence. }
  rewrite (stored_unique _ _ _ Hroot' Hst) in Hload.
  rewrite (bind_Cont _ _ _ _ _ Hload), (bind_Cont _ _ _ _ _ Hrun).
  reflexivity.
Qed.

Lemma writes_resolved env root src evs : Resolved env root src evs -> writes evs = [].
Proof. by intros []. Qed.

Lemma writes_materialize env k r len :
  writes (materialize env k r len) = [NewBlob (concat r)].
Proof.
  unfold writes, materialize. rewrite List.filter_app.
  destruct (negb (noProgress env)); [|done].
  rewrite filter_none; [done|]. apply Forall_fmap, Forall_true. done.
Qed.

(** C7. With [--commit=false] no run moves the head of the dataset, commits
    anything or builds commit metadata; a run that gets to write its value
    ends successfully, having added that value, a bare blob, to the store and
    printed its hash on standard output after a [#]; and every run that
    succeeds, that is every run whose source resolves, does get there: it
    makes the blob of the bytes of its source, writes it as a loose value and
    prints [#] and its hash, and nothing on standard error. *)
Theorem write_only_keeps_head env :
  performCommit env = false ->
  ds_head (run_db (run env)) = ds_head (database env) /\
  Forall (fun e => match e with
                   | Commit _ _ | CreateCommitMetaStruct _ => False
                   | _ => True
                   end) (run_trace (run env)) /\
  (forall b, WriteValue b ∈ run_trace (run env) ->
     run_end (run env) = Returned /\
     (exists data, b = Blob data) /\
     run_db (run env) =
       {| ds_head := ds_head (database env);
          db_values := b :: db_values (database env) |} /\
     stdout_of (run_trace (run env)) = ["#" +:+ Hash_String env b +:+ nl]) /\
  (forall root r len kv s',
     Resolving env root ->
     resolve env root (push (initial env) [GetDataset (target env)])
       = Cont (r, len, kv) s' ->
     run_end (run env) = Returned /\
     writes (run_trace (run env)) =
       [NewBlob (concat r); WriteValue (Blob (concat r))] /\
     run_db (run env) =
       {| ds_head := ds_head (database env);
          db_values := Blob (concat r) :: db_values (database env) |} /\
     stdout_of (run_trace (run env)) =
       ["#" +:+ Hash_String env (Blob (concat r)) +:+ nl] /\
     stderr_of (run_trace (run env)) = []).
Proof.
  intros Hmode.
  destruct (write_only_frame env Hmode) as (Hhead & Hnone & Hwritten).
  split_and!; [done|done|done|].
  intros root r len kv s' Hres Hrun.
  destruct (resolve_Cont_inv _ _ _ _ _ Hrun) as (evs & Hsrc & Hs').
  rewrite (run_of_descriptor env root _ _ Hres Hrun).
  destruct (ingest_cases env (r, len, kv) s') as (t & db' & evs' & Hing & ->).
  subst s'. cbn [run_end run_db run_trace push initial st_db st_clock st_trace] in *.
  inversion Hing; subst; try congruence.
  unfold writes. rewrite !stdout_of_app, !stderr_of_app, !List.filter_app.
  fold (writes evs). fold (writes (materialize env 0 r len)).
  rewrite (writes_resolved _ _ _ _ Hsrc), writes_materialize,
    (Resolved_stdout _ _ _ _ Hsrc), (Resolved_stderr _ _ _ _ Hsrc),
    materialize_stdout, materialize_stderr.
  simpl. by destruct (negb (noProgress env)).
Qed.

(* ===================================================================== *)
(** * Choosing the source *)
(* ===================================================================== *)

Lemma calls_from_push {A} s (a : A) evs : calls_from s (Cont a (push s evs)) = evs.
Proof. unfold calls_from, push. simpl. apply drop_app_length. Qed.

Lemma calls_from_push_stop {A} s t evs :
  calls_from s (@Stop A t (push s evs)) = evs.
Proof. unfold calls_from, push. simpl. apply drop_app_length. Qed.

(** C8. Source resolution, lines 77-132: with the stdin flag set it yields
    standard input, the declared length -1 ("unknown") and no metadata key,
    and calls nothing; without the flag it goes to the network with the
    positional argument when that has the prefix "http", never touching the
    file system, and it opens the argument as a file in every other case,
    never touching the network. *)
Theorem source_kind_decision env root s :
  (stdin env = true ->
   resolve env root s = Cont (os_Stdin env, -1, ∅) s /\
   expected env (-1) = "(unknown)") /\
  (stdin env = false -> HasPrefix (source env) "http" = true ->
   head (calls_from s (resolve env root s)) = Some (HttpNewRequest "GET" (source env)) /\
   Forall (fun e => is_file_call e = false) (calls_from s (resolve env root s))) /\
  (stdin env = false -> HasPrefix (source env) "http" = false ->
   head (calls_from s (resolve env root s)) = Some (OsOpen (source env)) /\
   Forall (fun e => is_http_call e = false) (calls_from s (resolve env root s))).
Proof.
  destruct (resolve_cases env root s)
    as [(src & evs & Hsrc & ->)|(evs & Hun & ->)];
    rewrite ?calls_from_push, ?calls_from_push_stop.
  - destruct Hsrc; split_and!; intros; try congruence;
      rewrite ?push_nil; try done; split; by repeat constructor.
  - destruct Hun; split_and!; intros; try congruence;
      split; by repeat constructor.
Qed.

(* ===================================================================== *)
(** * File mode *)
(* ===================================================================== *)

(** C9. In file mode a path that cannot be opened, and a file whose size
    cannot be determined, end the run at once with a message on standard
    error and nothing written; otherwise resolution yields the file's data,
    its size as the declared length, and the one metadata pair of "file" and
    the path. *)
Theorem file_mode_resolution env root path :
  FileMode env root path ->
  (forall e, os_Open env path = Err e ->
     run env =
     {| run_end := Returned; run_db := database env;
        run_trace :=
          [GetDataset (target env); OsOpen path;
           Stderr ("Invalid URL " +:+ path
                   +:+ " - does not start with 'http' and isn't local file either. fopen error: "
                   +:+ Error e);
           DbClose] |} /\
     writes (run_trace (run env)) = []) /\
  (forall f e, os_Open env path = Ok f -> file_Stat f = Err e ->
     run env =
     {| run_end := Returned; run_db := database env;
        run_trace :=
          [GetDataset (target env); OsOpen path; FileStat path;
           Stderr ("Could not stat file " +:+ path +:+ ": " +:+ Error e);
           DbClose] |} /\
     writes (run_trace (run env)) = []) /\
  (forall f size s, os_Open env path = Ok f -> file_Stat f = Ok size ->
     resolve env root s =
     Cont (file_data f, size, {["file" := path]})
          (push s [OsOpen path; FileStat path])).
Proof.
  intros Hmode. split_and!.
  - intros e Hopen.
    destruct (file_mode_paths env root path Hmode)
      as [(e' & He & Hrun)|[(f & e' & Hf & _)|(f & size & t & db' & evs & Hf & _)]];
      try congruence.
    assert (e' = e) as -> by congruence. by rewrite Hrun.
  - intros f e Hopen Hstat.
    destruct (file_mode_paths env root path Hmode)
      as [(e' & He & _)|[(f' & e' & Hf & He & Hrun)
         |(f' & size & t & db' & evs & Hf & Hs & _)]];
      try congruence.
    assert (f' = f) as -> by congruence.
    assert (e' = e) as -> by congruence. by rewrite Hrun.
  - intros f size s Hopen Hstat. destruct Hmode as [_ Hstdin <- Hpre].
    destruct (resolve_cases env root s)
      as [(src & evs & Hsrc & ->)|(evs & Hun & ->)].
    + destruct Hsrc as [|resp|f' size']; try congruence.
      assert (f' = f) as -> by congruence.
      assert (size' = size) as -> by congruence.
      by rewrite insert_empty.
    + destruct Hun; congruence.
Qed.

(* ===================================================================== *)
(** * The status line *)
(* ===================================================================== *)

Lemma Seconds_zero : Seconds 0 = S754_zero false.
Proof. reflexivity. Qed.

(** Dividing by zero yields no number that a uint64 can hold. *)
Lemma float64_div_by_zero x s :
  float64_div x (S754_zero s) = S754_nan \/
  exists s', float64_div x (S754_zero s) = S754_infinity s'.
Proof. destruct x; simpl; eauto. Qed.

(** C4, as the code has it. The reporter renders
    [<bytesSeen> of <declaredLength or "(unknown)"> written in
    <elapsedSeconds>s (<rate>/s)...] and never faults; a zero elapsed
    duration is not special-cased: the quotient is then an infinity or not a
    number, and the rate is whatever the platform makes of converting that to
    a uint64. *)
Theorem status_line_rendering env expectedLen seenLen :
  (forall elapsed,
     statusLine env expectedLen seenLen elapsed =
     human_Bytes env seenLen +:+ " of " +:+
     (if expectedLen <? 0 then "(unknown)"
      else human_Bytes env (expectedLen mod two64)) +:+
     " written in " +:+
     itoa (uint64_of_float64 (uint64_of_other env) (Seconds elapsed)) +:+
     "s (" +:+ human_Bytes env (rate env seenLen elapsed) +:+ "/s)...") /\
  let q := float64_div (float64_of_Z seenLen) (Seconds 0) in
  (q = S754_nan \/ exists s, q = S754_infinity s) /\
  rate env seenLen 0 = uint64_of_other env q /\
  statusLine env expectedLen seenLen 0 =
    human_Bytes env seenLen +:+ " of " +:+
    (if expectedLen <? 0 then "(unknown)"
     else human_Bytes env (expectedLen mod two64)) +:+
    " written in 0s (" +:+ human_Bytes env (uint64_of_other env q) +:+ "/s)...".
Proof.
  split; [done|]. intros q.
  assert (Hq : q = S754_nan \/ exists s, q = S754_infinity s).
  { unfold q. rewrite Seconds_zero. apply float64_div_by_zero. }
  assert (Hrate : rate env seenLen 0 = uint64_of_other env q).
  { unfold rate. fold q. destruct Hq as [->|[s ->]]; reflexivity. }
  split_and!; [done|done|].
  unfold statusLine. by rewrite Hrate, Seconds_zero.
Qed.

(** C4, as the claim has it, fails: five bytes seen at a zero elapsed
    duration give, with the conversion of amd64, a rate that is not zero. *)
Lemma zero_elapsed_rate_is_not_zero :
  rate Sample.first_fetch 5 0 = 9223372036854775808 /\
  rate Sample.first_fetch 5 0 <> 0 /\
  statusLine Sample.first_fetch 10 5 0 =
    "5 B of 10 B written in 0s (9223372036854775808 B/s)...".
Proof. vm_compute. split_and!; [reflexivity|discriminate|reflexivity]. Qed.

(* ===================================================================== *)
(** * Errors and the exit status *)
(* ===================================================================== *)

(** C3 fails on the code: a local file that cannot be opened is reported on
    standard error, and then [main] returns, so that the process ends with
    status 0. *)
Theorem source_error_exits_with_zero :
  stderr_of (run_trace (run Sample.missing_file)) =
    ["Invalid URL /no/such/file - does not start with 'http' and isn't local file either. fopen error: no such file or directory"] /\
  run_end (run Sample.missing_file) = Returned /\
  exit_status (run_end (run Sample.missing_file)) = 0.
Proof. vm_compute. by split_and!. Qed.

(* ===================================================================== *)
(** * The theorems at the sample runs *)
(* ===================================================================== *)

Lemma refetch_http_mode :
  HttpMode Sample.refetch_unchanged Sample.stored_example Sample.example_url.
Proof. repeat constructor. Defined.

Lemma first_fetch_http_mode (answer : result Response) :
  HttpMode (Sample.env_of false true false [Sample.example_url; "ds"]
              Sample.empty_db answer Sample.no_file None)
           zeroMeta Sample.example_url.
Proof. repeat constructor. Defined.

Lemma not_modified_performs_no_write_witness :
  HttpMode Sample.refetch_unchanged Sample.stored_example Sample.example_url /\
  Do Sample.refetch_unchanged (build_request Sample.stored_example Sample.example_url)
    = Ok Sample.not_modified_response /\
  StatusCode Sample.not_modified_response = 304 /\
  writes (run_trace (run Sample.refetch_unchanged)) = [] /\
  run_db (run Sample.refetch_unchanged) = database Sample.refetch_unchanged /\
  stdout_of (run_trace (run Sample.refetch_unchanged)) =
    ["Content unchanged since last fetch, no commit made"] /\
  stderr_of (run_trace (run Sample.refetch_unchanged)) = [] /\
  run_end (run Sample.refetch_unchanged) = Returned /\
  exit_status (run_end (run Sample.refetch_unchanged)) = 0.
Proof.
  split; [exact refetch_http_mode|].
  split; [reflexivity|]. split; [reflexivity|].
  apply (not_modified_performs_no_write Sample.refetch_unchanged Sample.stored_example
           Sample.example_url Sample.not_modified_response);
    [exact refetch_http_mode|reflexivity|reflexivity].
Defined.

Lemma precondition_header_iff_witness :
  HttpMode Sample.refetch_unchanged Sample.stored_example Sample.example_url /\
  exists req,
    List.filter is_http_do (run_trace (run Sample.refetch_unchanged)) = [HttpDo req] /\
    req_Method req = "GET" /\
    req_URL req = Sample.example_url /\
    (is_Some (req_Header req !! "If-None-Match") <->
     URL Sample.stored_example = Sample.example_url /\ Etag Sample.stored_example <> EmptyString) /\
    (forall v, req_Header req !! "If-None-Match" = Some v -> v = Etag Sample.stored_example).
Proof.
  split; [exact refetch_http_mode|].
  apply (precondition_header_iff Sample.refetch_unchanged Sample.stored_example
           Sample.example_url).
  exact refetch_http_mode.
Defined.

Lemma error_status_aborts_witness :
  HttpMode Sample.fetch_not_found zeroMeta Sample.example_url /\
  Do Sample.fetch_not_found (build_request zeroMeta Sample.example_url)
    = Ok Sample.not_found_response /\
  400 <= StatusCode Sample.not_found_response <= 599 /\
  run_trace (run Sample.fetch_not_found) =
    [GetDataset (target Sample.fetch_not_found);
     HttpNewRequest "GET" Sample.example_url;
     HttpDo (build_request zeroMeta Sample.example_url);
     Stderr ("Could not fetch url " +:+ Sample.example_url +:+ ", error: "
             +:+ itoa (StatusCode Sample.not_found_response) +:+ " ("
             +:+ Status Sample.not_found_response +:+ ")" +:+ nl);
     DbClose] /\
  run_end (run Sample.fetch_not_found) = Returned /\
  writes (run_trace (run Sample.fetch_not_found)) = [] /\
  run_db (run Sample.fetch_not_found) = database Sample.fetch_not_found.
Proof.
  split; [exact (first_fetch_http_mode _)|].
  split; [reflexivity|]. split; [simpl; lia|].
  apply (error_status_aborts Sample.fetch_not_found zeroMeta Sample.example_url
           Sample.not_found_response);
    [exact (first_fetch_http_mode _)|reflexivity|simpl; lia].
Defined.

Lemma not_modified_without_precondition_witness :
  HttpMode Sample.first_fetch_unchanged zeroMeta Sample.example_url /\
  ~ (URL zeroMeta = Sample.example_url /\ Etag zeroMeta <> EmptyString) /\
  Do Sample.first_fetch_unchanged (build_request zeroMeta Sample.example_url)
    = Ok Sample.not_modified_response /\
  StatusCode Sample.not_modified_response = 304 /\
  req_Header (build_request zeroMeta Sample.example_url) !! "If-None-Match" = None /\
  run_trace (run Sample.first_fetch_unchanged) =
    [GetDataset (target Sample.first_fetch_unchanged);
     HttpNewRequest "GET" Sample.example_url;
     HttpDo (build_request zeroMeta Sample.example_url);
     Stdout "Content unchanged since last fetch, no commit made"; DbClose] /\
  writes (run_trace (run Sample.first_fetch_unchanged)) = [] /\
  run_db (run Sample.first_fetch_unchanged) = database Sample.first_fetch_unchanged /\
  run_end (run Sample.first_fetch_unchanged) = Returned.
Proof.
  assert (Hpre : ~ (URL zeroMeta = Sample.example_url /\ Etag zeroMeta <> EmptyString)).
  { simpl. intros [H _]. discriminate H. }
  split; [exact (first_fetch_http_mode _)|].
  split; [exact Hpre|]. split; [reflexivity|]. split; [reflexivity|].
  apply (not_modified_without_precondition Sample.first_fetch_unchanged zeroMeta
           Sample.example_url Sample.not_modified_response);
    [exact (first_fetch_http_mode _)|exact Hpre|reflexivity|reflexivity].
Defined.

Lemma commit_failure_is_reported_witness :
  Commit (Blob Sample.hello) (<["date" := "2016-01-01"]> ∅)
    ∈ run_trace (run Sample.stdin_conflict) /\
  Commit_err Sample.stdin_conflict (database Sample.stdin_conflict)
    (Blob Sample.hello) (<["date" := "2016-01-01"]> ∅) = Some Sample.merge_needed /\
  run_db (run Sample.stdin_conflict) = database Sample.stdin_conflict /\
  List.filter is_commit (run_trace (run Sample.stdin_conflict)) =
    [Commit (Blob Sample.hello) (<["date" := "2016-01-01"]> ∅)] /\
  (Sample.merge_needed = ErrMergeNeeded Sample.stdin_conflict ->
   run_end (run Sample.stdin_conflict) = Returned /\
   stderr_of (run_trace (run Sample.stdin_conflict)) =
     ["Could not commit, optimistic concurrency failed."]) /\
  (Sample.merge_needed <> ErrMergeNeeded Sample.stdin_conflict ->
   run_end (run Sample.stdin_conflict) = Panicked (Error Sample.merge_needed) /\
   exit_status (run_end (run Sample.stdin_conflict)) <> 0).
Proof.
  assert (Hin : Commit (Blob Sample.hello) (<["date" := "2016-01-01"]> ∅)
                  ∈ run_trace (run Sample.stdin_conflict)).
  { vm_compute. do 3 apply list_elem_of_further. apply list_elem_of_here. }
  split; [exact Hin|]. split; [reflexivity|].
  apply (commit_failure_is_reported Sample.stdin_conflict (Blob Sample.hello)
           (<["date" := "2016-01-01"]> ∅) Sample.merge_needed);
    [exact Hin|reflexivity].
Defined.

Lemma write_only_keeps_head_witness :
  performCommit Sample.stdin_write_only = false /\
  Resolving Sample.stdin_write_only zeroMeta /\
  resolve Sample.stdin_write_only zeroMeta
    (push (initial Sample.stdin_write_only)
          [GetDataset (target Sample.stdin_write_only)])
    = Cont (os_Stdin Sample.stdin_write_only, -1, ∅)
           (push (initial Sample.stdin_write_only)
                 [GetDataset (target Sample.stdin_write_only)]) /\
  ds_head (run_db (run Sample.stdin_write_only)) =
    ds_head (database Sample.stdin_write_only) /\
  run_end (run Sample.stdin_write_only) = Returned /\
  writes (run_trace (run Sample.stdin_write_only)) =
    [NewBlob (concat (os_Stdin Sample.stdin_write_only));
     WriteValue (Blob (concat (os_Stdin Sample.stdin_write_only)))] /\
  run_db (run Sample.stdin_write_only) =
    {| ds_head := ds_head (database Sample.stdin_write_only);
       db_values := Blob (concat (os_Stdin Sample.stdin_write_only))
                    :: db_values (database Sample.stdin_write_only) |} /\
  stdout_of (run_trace (run Sample.stdin_write_only)) =
    ["#" +:+ Hash_String Sample.stdin_write_only
               (Blob (concat (os_Stdin Sample.stdin_write_only))) +:+ nl] /\
  stderr_of (run_trace (run Sample.stdin_write_only)) = [].
Proof.
  assert (Hres : Resolving Sample.stdin_write_only zeroMeta)
    by (repeat constructor).
  split; [reflexivity|]. split; [exact Hres|]. split; [reflexivity|].
  destruct (write_only_keeps_head Sample.stdin_write_only eq_refl)
    as (Hhead & _ & _ & Hsucceeds).
  split; [exact Hhead|].
  exact (Hsucceeds zeroMeta (os_Stdin Sample.stdin_write_only) (-1) ∅ _ Hres eq_refl).
Defined.

Lemma source_kind_decision_witness :
  stdin Sample.stdin_write_only = true /\
  resolve Sample.stdin_write_only zeroMeta (initial Sample.stdin_write_only) =
    Cont (os_Stdin Sample.stdin_write_only, -1, ∅) (initial Sample.stdin_write_only) /\
  expected Sample.stdin_write_only (-1) = "(unknown)".
Proof.
  split; [reflexivity|].
  apply (proj1 (source_kind_decision Sample.stdin_write_only zeroMeta
                  (initial Sample.stdin_write_only))).
  reflexivity.
Defined.

Lemma missing_file_mode : FileMode Sample.missing_file zeroMeta "/no/such/file".
Proof. repeat constructor. Defined.

Lemma file_mode_resolution_witness :
  FileMode Sample.missing_file zeroMeta "/no/such/file" /\
  os_Open Sample.missing_file "/no/such/file"
    = Err (mkError "no such file or directory") /\
  run Sample.missing_file =
    {| run_end := Returned; run_db := database Sample.missing_file;
       run_trace :=
         [GetDataset (target Sample.missing_file); OsOpen "/no/such/file";
          Stderr ("Invalid URL " +:+ "/no/such/file"
                  +:+ " - does not start with 'http' and isn't local file either. fopen error: "
                  +:+ Error (mkError "no such file or directory"));
          DbClose] |} /\
  writes (run_trace (run Sample.missing_file)) = [].
Proof.
  split; [exact missing_file_mode|]. split; [reflexivity|].
  apply (proj1 (file_mode_resolution Sample.missing_file zeroMeta "/no/such/file"
                  missing_file_mode)).
  reflexivity.
Defined.

(* ===================================================================== *)
(** * The scenarios, evaluated *)
(* ===================================================================== *)

(** Scenario A: the first fetch commits the body with the URL and the etag
    of the answer as metadata, and sends no precondition header. *)
Example first_fetch_commits :
  run_trace (run Sample.first_fetch) =
    [GetDataset "ds"; HttpNewRequest "GET" Sample.example_url;
     HttpDo (mkRequest "GET" Sample.example_url ∅);
     StatusPrintf "5 B of 5 B written in 1s (3 B/s)...";
     NewBlob Sample.hello;
     CreateCommitMetaStruct (<["etag" := "v1"]> (<["url" := Sample.example_url]> ∅));
     Commit (Blob Sample.hello)
            (<["date" := "2016-01-01"]>
               (<["etag" := "v1"]> (<["url" := Sample.example_url]> ∅)));
     StatusDone; DbClose] /\
  ds_head (run_db (run Sample.first_fetch)) =
    Some (CommitOf None (Blob Sample.hello)
            (<["date" := "2016-01-01"]>
               (<["etag" := "v1"]> (<["url" := Sample.example_url]> ∅)))).
Proof. split; vm_compute; reflexivity. Qed.

(** Scenario C: standard input written without a commit. *)
Example stdin_write_only_run :
  run Sample.stdin_write_only =
    {| run_end := Returned;
       run_db := {| ds_head := None; db_values := [Blob Sample.hello] |};
       run_trace :=
         [GetDataset "ds";
          StatusPrintf "5 B of (unknown) written in 1s (3 B/s)...";
          NewBlob Sample.hello; WriteValue (Blob Sample.hello); StatusClear;
          Stdout ("#blob5" +:+ nl); DbClose] |}.
Proof. vm_compute. reflexivity. Qed.

(** A commit that fails otherwise than by the conflict stops the run. *)
Example commit_broken_run :
  run_end (run Sample.stdin_commit_broken) = Panicked "disk full" /\
  run_db (run Sample.stdin_commit_broken) = Sample.fetched_once.
Proof. split; vm_compute; reflexivity. Qed.

(** No argument at all: the usage text, and status 1. *)
Example no_arguments_run :
  run_end (run (Sample.env_of false true false [] Sample.empty_db
                  (Ok Sample.ok_response) Sample.no_file None)) = Exited 1.
Proof. reflexivity. Qed.

(** A local file: its size is the declared length. *)
Example local_file_run :
  run_trace (run Sample.local_file) =
    [GetDataset "ds"; OsOpen "/data/blob.bin"; FileStat "/data/blob.bin";
     StatusPrintf "5 B of 5 B written in 1s (3 B/s)...";
     NewBlob Sample.hello;
     CreateCommitMetaStruct (<["file" := "/data/blob.bin"]> ∅);
     Commit (Blob Sample.hello)
            (<["date" := "2016-01-01"]> (<["file" := "/data/blob.bin"]> ∅));
     StatusDone; DbClose].
Proof. vm_compute. reflexivity. Qed.

(** Two and a half seconds, and half a second. *)
Example status_line_values :
  statusLine Sample.first_fetch 10 5 2500000000 = "5 B of 10 B written in 2s (2 B/s)..." /\
  statusLine Sample.first_fetch (-1) 4096 500000000 =
    "4096 B of (unknown) written in 0s (8192 B/s)...".
Proof. split; vm_compute; reflexivity. Qed.

(* ===================================================================== *)
(** * Before the source: the command line, the dataset, the head *)
(* ===================================================================== *)

Ltac run_paths env :=
  let Hu := fresh "Hu" in let Hd := fresh "Hd" in
  let Hh := fresh "Hh" in let He := fresh "He" in
  let Hres := fresh "Hres" in let Hun := fresh "Hun" in
  let Hsrc := fresh "Hsrc" in let Hing := fresh "Hing" in
  destruct (run_path env)
    as [Hu|? Hu Hd|? ? Hu Hd Hh He|? ? Hres Hun|? ? ? ? ? ? Hres Hsrc Hing].

Lemma bad_usage_count env :
  bad_usage env = true <->
  length (flag_Args env) <> 2%nat /\
  (stdin env = false \/ length (flag_Args env) <> 1%nat).
Proof.
  unfold bad_usage, flag_NArg.
  destruct (stdin env); simpl;
    destruct (Nat.eqb_spec (length (flag_Args env)) 1);
    destruct (Nat.eqb_spec (length (flag_Args env)) 2); simpl;
    intuition (try congruence; try lia).
Qed.

Lemma Resolving_usage env root : Resolving env root -> bad_usage env = false.
Proof. by intros []. Qed.

Lemma Resolving_dataset env root :
  Resolving env root -> GetDataset_err env (target env) = None.
Proof. by intros []. Qed.

(** X1. The usage text is what a run prints, and [exit.Fail()] how it ends,
    exactly when the number of arguments is not two and is not one with the
    stdin flag set; such a run calls nothing else: the dataset is not even
    resolved. *)
Theorem usage_exactly_on_bad_count env :
  (length (flag_Args env) <> 2%nat /\
   (stdin env = false \/ length (flag_Args env) <> 1%nat)) <->
  run env =
    {| run_end := Exited 1; run_db := database env;
       run_trace := [Stderr (usage_text env); PrintDefaults] |}.
Proof.
  rewrite <- bad_usage_count. split.
  - intros Hbad. run_paths env; try done; try congruence.
    + apply Resolving_usage in Hres. congruence.
    + apply Resolving_usage in Hres. congruence.
  - intros Hrun. destruct (bad_usage env) eqn:Hbad; [done|].
    run_paths env; try congruence; discriminate Hrun.
Qed.

(** X2. When the dataset cannot be resolved the run prints [error: ] and the
    error on standard error and ends through [exit.Fail()]: the head is not
    read, no source is touched, and [db.Close()] is not called. *)
Theorem unresolved_dataset_exits env e :
  bad_usage env = false ->
  GetDataset_err env (target env) = Some e ->
  run env =
    {| run_end := Exited 1; run_db := database env;
       run_trace := [GetDataset (target env);
                     Stderr ("error: " +:+ Error e +:+ nl)] |}.
Proof.
  intros Hbad Hds. run_paths env; try congruence.
  - apply Resolving_dataset in Hres. congruence.
  - apply Resolving_dataset in Hres. congruence.
Qed.

(** X3. When the dataset has a head that cannot be decoded the run says so
    on standard error and returns: no source is touched, whatever the
    command line asks for, nothing is written, and the database is
    closed. *)
Theorem undecodable_head_returns env h e :
  bad_usage env = false ->
  GetDataset_err env (target env) = None ->
  ds_head (database env) = Some h ->
  Unmarshal env h = Err e ->
  run env =
    {| run_end := Returned; run_db := database env;
       run_trace := [GetDataset (target env);
                     Stderr ("Could not unmarshal head: " +:+ Error e +:+ nl);
                     DbClose] |}.
Proof.
  intros Hbad Hds Hhead Herr. run_paths env; try congruence.
  - destruct Hres as [_ _ Hst]. unfold stored in Hst. rewrite Hhead in Hst. congruence.
  - destruct Hres as [_ _ Hst]. unfold stored in Hst. rewrite Hhead in Hst. congruence.
Qed.

(** X4. In every run that gets past the check of the arguments, the dataset
    is the last argument, resolving it is the first call the run makes, and
    without the stdin flag the arguments are the source and the dataset. *)
Theorem dataset_is_last_argument env :
  bad_usage env = false ->
  (exists rest, flag_Args env = rest ++ [target env])%list /\
  head (run_trace (run env)) = Some (GetDataset (target env)) /\
  (stdin env = false -> flag_Args env = [source env; target env]).
Proof.
  intros Hbad. split_and!.
  - unfold bad_usage, target, flag_Arg, flag_NArg, nth_arg in *.
    destruct (flag_Args env) as [|a [|b [|c l]]]; simpl in *.
    + by destruct (stdin env).
    + by exists [].
    + by exists [a].
    + rewrite andb_false_r in Hbad. discriminate Hbad.
  - run_paths env; try congruence; done.
  - intros Hstdin.
    unfold bad_usage, target, source, flag_Arg, flag_NArg, nth_arg in *.
    rewrite Hstdin in Hbad.
    by destruct (flag_Args env) as [|a [|b [|c l]]].
Qed.

(* ===================================================================== *)
(** * What every run does and never does *)
(* ===================================================================== *)

Lemma filter_by_class (f g : Event -> bool) (l : list Event) :
  Forall (fun e => g e = true) l ->
  (forall e, g e = true -> f e = false) ->
  List.filter f l = [].
Proof.
  intros Hl Hfg. apply filter_none. eapply Forall_impl; [exact Hl|]. exact Hfg.
Qed.

Lemma filter_materialize f env k r len :
  (forall line, f (StatusPrintf line) = false) ->
  List.filter f (materialize env k r len) = List.filter f [NewBlob (concat r)].
Proof.
  intros Hf. unfold materialize. rewrite List.filter_app.
  destruct (negb (noProgress env)); [|done].
  rewrite filter_none; [done|]. apply Forall_fmap, Forall_true. exact Hf.
Qed.

Lemma elem_of_filter_bool_inv {A} (f : A -> bool) (x : A) (l : list A) :
  x ∈ List.filter f l -> x ∈ l /\ f x = true.
Proof. rewrite !list_elem_of_In. apply filter_In. Qed.

Lemma last_cons_snoc {A} (x y : A) (l : list A) : last (x :: l ++ [y]) = Some y.
Proof. by rewrite app_comm_cons, last_snoc. Qed.

Lemma deferred_exit t e : is_exit t = true -> deferred t e = [].
Proof. by destruct t. Qed.

Lemma deferred_no_exit t e : is_exit t = false -> deferred t e = [e].
Proof. by destruct t. Qed.

(** The calls a run makes, by the part of [main] that makes them. *)
Lemma run_trace_parts env :
  (run_trace (run env) = [Stderr (usage_text env); PrintDefaults] /\
   bad_usage env = true /\ run_end (run env) = Exited 1) \/
  (exists e, run_trace (run env) =
             [GetDataset (target env); Stderr ("error: " +:+ Error e +:+ nl)] /\
             bad_usage env = false /\ GetDataset_err env (target env) = Some e /\
             run_end (run env) = Exited 1) \/
  (exists evs evs',
     run_trace (run env) =
       GetDataset (target env) :: evs ++ evs' ++ deferred (run_end (run env)) DbClose /\
     bad_usage env = false /\ GetDataset_err env (target env) = None /\
     Forall (fun e => is_resolve_call e = true) evs /\
     Forall (fun e => is_ingest_call e = true) evs').
Proof.
  run_paths env; simpl.
  - by left.
  - right; left. by eexists.
  - right; right. eexists [Stderr _], []. by split_and!; repeat constructor.
  - right; right. exists evs, []. destruct Hres. split_and!; try done.
    by eapply Unresolved_calls.
  - right; right. exists evs, evs'. destruct Hres. split_and!; try done.
    + by eapply Resolved_calls.
    + by eapply Ingested_calls.
Qed.

Lemma in_db_close l : DbClose ∈ l <-> List.filter is_db_close l <> [].
Proof.
  split.
  - intros Hin Hnil. apply (elem_of_filter_bool is_db_close) in Hin; [|done].
    rewrite Hnil in Hin. by apply elem_of_nil in Hin.
  - destruct (List.filter is_db_close l) as [|x l'] eqn:Hf; [done|]. intros _.
    assert (Hx : x ∈ List.filter is_db_close l) by (rewrite Hf; apply list_elem_of_here).
    apply elem_of_filter_bool_inv in Hx as [Hx Hc]. by destruct x.
Qed.

(** X5. [db.Close()] is called exactly in the runs that have resolved the
    dataset and do not end through [exit.Fail()]; it is then called once, as
    the last call of the run. *)
Theorem close_exactly_when_opened env :
  (DbClose ∈ run_trace (run env) <->
   bad_usage env = false /\ GetDataset_err env (target env) = None /\
   is_exit (run_end (run env)) = false) /\
  (DbClose ∈ run_trace (run env) ->
   last (run_trace (run env)) = Some DbClose /\
   List.filter is_db_close (run_trace (run env)) = [DbClose]).
Proof.
  rewrite in_db_close.
  destruct (run_trace_parts env)
    as [(-> & Hbad & ->)|[(e & -> & Hbad & Hds & ->)
       |(evs & evs' & -> & Hbad & Hds & Hevs & Hevs')]]; simpl.
  - split; [split; [done|]|done]. intros (? & _). congruence.
  - split; [split; [done|]|done]. by intros (_ & _ & ?).
  - rewrite !List.filter_app.
    rewrite (filter_by_class is_db_close _ evs Hevs) by by intros [].
    rewrite (filter_by_class is_db_close _ evs' Hevs') by by intros [].
    destruct (is_exit (run_end (run env))) eqn:Hexit.
    + rewrite deferred_exit by done. simpl. split; [split; [done|]|done].
      by intros (_ & _ & ?).
    + rewrite deferred_no_exit by done. simpl. split; [done|]. intros _.
      split; [|done]. by rewrite app_assoc, last_cons_snoc.
Qed.

Lemma Unresolved_outputs env root evs :
  Unresolved env root evs ->
  (length (stdout_of evs) + length (stderr_of evs) = 1)%nat.
Proof. by intros []. Qed.

Lemma Ingested_outputs env db k src t db' evs :
  Ingested env db k src t db' evs ->
  (length (stdout_of evs) + length (stderr_of evs) <= 1)%nat.
Proof.
  intros H. destruct H;
    rewrite ?stdout_of_app, ?stderr_of_app, ?materialize_stdout, ?materialize_stderr;
    simpl; try destruct (negb (noProgress env)); simpl; lia.
Qed.

Lemma deferred_stdout t : stdout_of (deferred t DbClose) = [].
Proof. by destruct t. Qed.

Lemma deferred_stderr t : stderr_of (deferred t DbClose) = [].
Proof. by destruct t. Qed.

Lemma stdout_of_cons e l : stdout_of (e :: l) = (stdout_of [e] ++ stdout_of l)%list.
Proof. by rewrite <- stdout_of_app. Qed.

Lemma stderr_of_cons e l : stderr_of (e :: l) = (stderr_of [e] ++ stderr_of l)%list.
Proof. by rewrite <- stderr_of_app. Qed.

(** X6. No run prints more than one message on standard output and standard
    error together (the usage text counted as one). *)
Theorem at_most_one_message env :
  (length (stdout_of (run_trace (run env))) +
   length (stderr_of (run_trace (run env))) <= 1)%nat.
Proof.
  run_paths env; cbn [run_trace]; try (simpl; lia).
  - pose proof (Unresolved_outputs _ _ _ Hun).
    rewrite stdout_of_cons, stderr_of_cons, !stdout_of_app, !stderr_of_app,
      !length_app. simpl. lia.
  - pose proof (Ingested_outputs _ _ _ _ _ _ _ Hing).
    rewrite stdout_of_cons, stderr_of_cons, !stdout_of_app, !stderr_of_app,
      (Resolved_stdout _ _ _ _ Hsrc), (Resolved_stderr _ _ _ _ Hsrc),
      deferred_stdout, deferred_stderr, !length_app. simpl. lia.
Qed.

Lemma deferred_filter f t : f DbClose = false -> List.filter f (deferred t DbClose) = [].
Proof. intros Hf. destruct t; simpl; by rewrite ?Hf. Qed.

(** X7. No run sends more than one HTTP request or opens more than one
    file, and no run calls both the network and the file system. *)
Theorem one_source_per_run env :
  (length (List.filter is_http_do (run_trace (run env))) <= 1)%nat /\
  (length (List.filter is_open (run_trace (run env))) <= 1)%nat /\
  (List.filter is_http_call (run_trace (run env)) = [] \/
   List.filter is_file_call (run_trace (run env)) = []).
Proof.
  run_paths env; simpl; try (split_and!; [lia|lia|by left]).
  - destruct Hun; simpl; (split_and!; [lia|lia|]); (by left) || (by right).
  - rewrite !List.filter_app.
    pose proof (Ingested_calls _ _ _ _ _ _ _ Hing) as Hcalls.
    rewrite (filter_by_class is_http_do _ evs' Hcalls) by by intros [].
    rewrite (filter_by_class is_open _ evs' Hcalls) by by intros [].
    rewrite (filter_by_class is_http_call _ evs' Hcalls) by by intros [].
    rewrite (filter_by_class is_file_call _ evs' Hcalls) by by intros [].
    rewrite !deferred_filter by done.
    destruct Hsrc; simpl; (split_and!; [lia|lia|]); (by left) || (by right).
Qed.

Lemma Resolved_filter f env root src evs :
  Resolved env root src evs ->
  (forall e, is_resolve_call e = true -> f e = false) ->
  List.filter f evs = [].
Proof. intros H Hf. eapply filter_by_class; [by eapply Resolved_calls|done]. Qed.

Lemma Unresolved_filter f env root evs :
  Unresolved env root evs ->
  (forall e, is_resolve_call e = true -> f e = false) ->
  List.filter f evs = [].
Proof. intros H Hf. eapply filter_by_class; [by eapply Unresolved_calls|done]. Qed.

(** The calls of lines 134-157 that matter to the store, by how they end. *)
Lemma Ingested_store_calls env db k src t db' evs :
  Ingested env db k src t db' evs ->
  exists data,
    List.filter is_new_blob evs = [NewBlob data] /\
    ((performCommit env = true /\ List.filter is_write_value evs = [] /\
      (List.filter is_commit evs = [] \/
       exists meta, List.filter is_commit evs = [Commit (Blob data) meta])) \/
     (performCommit env = false /\ List.filter is_commit evs = [] /\
      List.filter is_write_value evs = [WriteValue (Blob data)])).
Proof.
  intros H. destruct H; exists (concat r);
    rewrite ?List.filter_app, ?filter_materialize by done; simpl;
    try destruct (negb (noProgress env)); simpl; (split; [done|]);
    first [ by left; split_and!; [done|done|left]
          | by left; split_and!; [done|done|right; eexists]
          | by right ].
Qed.


(** X9. With [--no-progress] a run makes no call at all to the status
    line: no progress report, no [status.Done()], no [status.Clear()]. *)
Theorem no_progress_is_silent env :
  noProgress env = true ->
  List.filter is_status_call (run_trace (run env)) = [].
Proof.
  intros Hquiet. run_paths env; simpl; try done.
  - rewrite List.filter_app, (Unresolved_filter _ _ _ _ Hun); [done|by intros []].
  - rewrite !List.filter_app, (Resolved_filter _ _ _ _ _ Hsrc) by by intros [].
    rewrite deferred_filter, app_nil_r by done. simpl.
    destruct Hing; unfold materialize; rewrite Hquiet; done.
Qed.

(* ===================================================================== *)
(** * Commit mode *)
(* ===================================================================== *)

(** A run that makes such a call has resolved its source and the call is
    among those of lines 134-157. *)
Lemma ingest_call_inv env e :
  e ∈ run_trace (run env) ->
  is_ingest_only e = true ->
  exists root src evs t db' evs',
    Resolving env root /\
    Resolved env root src evs /\
    Ingested env (database env) 0 src t db' evs' /\
    run env = {| run_end := t; run_db := db';
                 run_trace := GetDataset (target env) :: evs ++ evs'
                              ++ deferred t DbClose |} /\
    e ∈ evs'.
Proof.
  intros Hin He.
  assert (Hno : forall l, Forall (fun x => is_resolve_call x = true) l -> e ∉ l).
  { intros l Hl Hel. rewrite Forall_forall in Hl. apply Hl in Hel. by destruct e. }
  run_paths env; cbn [run_trace] in Hin.
  - exfalso. repeat (apply elem_of_cons in Hin as [->|Hin]; [done|]).
    by apply elem_of_nil in Hin.
  - exfalso. repeat (apply elem_of_cons in Hin as [->|Hin]; [done|]).
    by apply elem_of_nil in Hin.
  - exfalso. repeat (apply elem_of_cons in Hin as [->|Hin]; [done|]).
    by apply elem_of_nil in Hin.
  - exfalso. apply elem_of_cons in Hin as [->|Hin]; [done|].
    apply elem_of_app in Hin as [Hin|Hin].
    + by eapply Hno; [eapply Unresolved_calls|].
    + apply list_elem_of_singleton in Hin. by subst e.
  - eexists _, _, _, _, _, _. split_and!; try done.
    apply elem_of_cons in Hin as [->|Hin]; [done|].
    apply elem_of_app in Hin as [Hin|Hin].
    { exfalso. by eapply Hno; [eapply Resolved_calls|]. }
    apply elem_of_app in Hin as [Hin|Hin]; [done|].
    exfalso. destruct t; simpl in Hin;
      try (apply list_elem_of_singleton in Hin; by subst e);
      by apply elem_of_nil in Hin.
Qed.

Lemma elem_of_materialize env k r len e :
  e ∈ materialize env k r len ->
  (exists line, e = StatusPrintf line) \/ e = NewBlob (concat r).
Proof.
  intros Hin. unfold materialize in Hin. apply elem_of_app in Hin as [Hin|Hin].
  - left. destruct (negb (noProgress env)); [|by apply elem_of_nil in Hin].
    apply list_elem_of_fmap in Hin as (line & -> & _). by eexists.
  - right. by apply list_elem_of_singleton in Hin.
Qed.

Lemma NewBlob_in_materialize env k r len :
  NewBlob (concat r) ∈ materialize env k r len.
Proof. unfold materialize. apply elem_of_app. right. apply list_elem_of_here. Qed.

Ltac in_ingested Hin :=
  rewrite ?elem_of_app, ?elem_of_cons, ?elem_of_nil in Hin;
  repeat match type of Hin with
         | _ \/ _ => destruct Hin as [Hin|Hin]
         | False => destruct Hin
         end;
  try (apply elem_of_materialize in Hin as [[? Hin]|Hin]);
  try match type of Hin with
      | _ ∈ (if ?c then _ else _) =>
          destruct c; [apply list_elem_of_singleton in Hin
                      |apply elem_of_nil in Hin; destruct Hin]
      end;
  try discriminate Hin.

(** X10. A commit that the store accepts ends the run quietly: [main]
    returns, nothing is printed on standard output or standard error, the
    metadata committed is what [CreateCommitMetaStruct] gave for the
    source, [status.Done()] is called exactly when progress is shown, and
    the database is closed last. *)
Theorem accepted_commit_is_quiet env b meta :
  Commit b meta ∈ run_trace (run env) ->
  Commit_err env (database env) b meta = None ->
  run_end (run env) = Returned /\
  stdout_of (run_trace (run env)) = [] /\
  stderr_of (run_trace (run env)) = [] /\
  (exists kv, CreateCommitMetaStruct kv ∈ run_trace (run env) /\
              CreateCommitMetaStruct_res env kv = Ok meta) /\
  (StatusDone ∈ run_trace (run env) <-> noProgress env = false) /\
  last (run_trace (run env)) = Some DbClose.
Proof.
  intros Hin Hok.
  destruct (ingest_call_inv env _ Hin eq_refl)
    as (root & src & evs & t & db' & evs' & Hres & Hsrc & Hing & -> & Hin').
  cbn [run_trace run_end].
  rewrite stdout_of_cons, stderr_of_cons, !stdout_of_app, !stderr_of_app,
    (Resolved_stdout _ _ _ _ Hsrc), (Resolved_stderr _ _ _ _ Hsrc),
    deferred_stdout, deferred_stderr.
  assert (Hdone : forall l, Forall (fun x => is_resolve_call x = true) l ->
                            StatusDone ∉ l).
  { intros l Hl Hel. rewrite Forall_forall in Hl. by apply Hl in Hel. }
  pose proof (Resolved_calls _ _ _ _ Hsrc) as Hcalls.
  destruct Hing; in_ingested Hin'; injection Hin' as -> ->; try congruence.
  rewrite !stdout_of_app, !stderr_of_app, materialize_stdout, materialize_stderr.
  split_and!.
  - done.
  - by destruct (negb (noProgress env)).
  - by destruct (negb (noProgress env)).
  - exists kv. split; [|done].
    apply elem_of_cons. right. apply elem_of_app. right.
    apply elem_of_app. left. apply elem_of_app. right. apply list_elem_of_here.
  - split.
    + intros Hd. apply elem_of_cons in Hd as [Hd|Hd]; [done|].
      apply elem_of_app in Hd as [Hd|Hd]; [by apply Hdone in Hd|].
      destruct (noProgress env); [|done]. simpl in Hd. in_ingested Hd.
    + intros ->. simpl. apply elem_of_cons. right. apply elem_of_app. right.
      apply elem_of_app. left. apply elem_of_app. right.
      do 2 apply list_elem_of_further. apply list_elem_of_here.
  - simpl. by rewrite !app_assoc, last_cons_snoc.
Qed.

Lemma Ingested_meta_call env db k r len kv t db' evs kv' :
  Ingested env db k (r, len, kv) t db' evs ->
  CreateCommitMetaStruct kv' ∈ evs ->
  kv' = kv /\ performCommit env = true /\ NewBlob (concat r) ∈ evs.
Proof.
  intros Hing Hin.
  assert (Hblob : NewBlob (concat r) ∈ evs).
  { inversion Hing; subst; apply elem_of_app; left; apply NewBlob_in_materialize. }
  inversion Hing; subst; in_ingested Hin; by injection Hin as ->.
Qed.

(** X11. The key/values a run hands to [CreateCommitMetaStruct] are those of
    its source and nothing else: none for standard input, the pair of
    "file" and the path for a file, and for a URL the pair of "url" and the
    URL, with an "etag" exactly when the answer to the request of the run
    had a non-empty Etag header, and then that header, and never a
    "file". *)
Theorem commit_metadata_of_source env kv :
  CreateCommitMetaStruct kv ∈ run_trace (run env) ->
  performCommit env = true /\
  (stdin env = true -> kv = ∅) /\
  (stdin env = false -> HasPrefix (source env) "http" = false ->
   kv = {["file" := source env]}) /\
  (stdin env = false -> HasPrefix (source env) "http" = true ->
   exists root resp,
     stored env root /\
     HttpDo (build_request root (source env)) ∈ run_trace (run env) /\
     Do env (build_request root (source env)) = Ok resp /\
     kv !! "url" = Some (source env) /\
     kv !! "file" = None /\
     kv !! "etag" =
       (if decide (Header_Get (Header resp) "Etag" = EmptyString)
        then None else Some (Header_Get (Header resp) "Etag")) /\
     (forall etag, kv !! "etag" = Some etag -> etag <> EmptyString) /\
     (forall k, is_Some (kv !! k) -> k = "url" \/ k = "etag")).
Proof.
  intros Hin.
  destruct (ingest_call_inv env _ Hin eq_refl)
    as (root & [[r len] kv0] & evs & t & db' & evs' & Hres & Hsrc & Hing & Hrun & Hin').
  destruct (Ingested_meta_call _ _ _ _ _ _ _ _ _ _ Hing Hin') as (-> & Hmode & _).
  split; [done|].
  inversion Hsrc as [Hstdin|resp Hstdin Hpre Hreq Hdo H304 Hcls|f size Hstdin Hpre Hopen Hstat];
    subst; (split_and!; try congruence).
  - intros _ _. exists root, resp. split; [by destruct Hres|].
    split.
    { rewrite Hrun. cbn [run_trace]. apply elem_of_cons. right.
      apply elem_of_app. left. apply list_elem_of_further, list_elem_of_here. }
    split; [done|]. unfold http_meta.
    destruct (decide (Header_Get (Header resp) "Etag" ≠ EmptyString)) as [Hetag|Hetag].
    + rewrite (decide_False (P := Header_Get (Header resp) "Etag" = EmptyString))
        by done.
      split_and!.
      * by rewrite lookup_insert_ne, lookup_insert_eq.
      * by rewrite !lookup_insert_ne.
      * by rewrite lookup_insert_eq.
      * intros etag. rewrite lookup_insert_eq. congruence.
      * intros k [v Hk].
        destruct (decide (k = "etag")) as [->|?]; [by right|].
        destruct (decide (k = "url")) as [->|?]; [by left|].
        by rewrite !lookup_insert_ne, lookup_empty in Hk.
    + destruct (decide (Header_Get (Header resp) "Etag" = EmptyString))
        as [Hempty|Hfull]; [|contradiction].
      split_and!.
      * by rewrite lookup_insert_eq.
      * by rewrite lookup_insert_ne.
      * by rewrite lookup_insert_ne, lookup_empty.
      * intros etag. by rewrite lookup_insert_ne, lookup_empty.
      * intros k [v Hk].
        destruct (decide (k = "url")) as [->|?]; [by left|].
        by rewrite lookup_insert_ne, lookup_empty in Hk.
  - intros _ _. by rewrite insert_empty.
Qed.

(** X12. When the commit metadata cannot be built the run ends through
    [exit.Fail()] after printing [error: ] and the error: by then the whole
    source has been read into a blob, but nothing is committed, and
    [db.Close()] is not called. *)
Theorem metadata_failure_exits env kv e :
  CreateCommitMetaStruct kv ∈ run_trace (run env) ->
  CreateCommitMetaStruct_res env kv = Err e ->
  is_exit (run_end (run env)) = true /\
  stderr_of (run_trace (run env)) = ["error: " +:+ Error e +:+ nl] /\
  stdout_of (run_trace (run env)) = [] /\
  List.filter is_commit (run_trace (run env)) = [] /\
  List.filter is_db_close (run_trace (run env)) = [] /\
  (exists data, NewBlob data ∈ run_trace (run env)) /\
  last (run_trace (run env)) = Some (Stderr ("error: " +:+ Error e +:+ nl)).
Proof.
  intros Hin Herr.
  destruct (ingest_call_inv env _ Hin eq_refl)
    as (root & [[r len] kv0] & evs & t & db' & evs' & Hres & Hsrc & Hing & -> & Hin').
  destruct (Ingested_meta_call _ _ _ _ _ _ _ _ _ _ Hing Hin') as (-> & Hmode & Hblob).
  cbn [run_trace run_end].
  rewrite stdout_of_cons, stderr_of_cons, !stdout_of_app, !stderr_of_app,
    (Resolved_stdout _ _ _ _ Hsrc), (Resolved_stderr _ _ _ _ Hsrc),
    deferred_stdout, deferred_stderr.
  assert (Hex : exists data,
            NewBlob data ∈ GetDataset (target env) :: evs ++ evs' ++ deferred t DbClose).
  { exists (concat r). apply elem_of_cons. right. apply elem_of_app. right.
    apply elem_of_app. by left. }
  simpl List.filter. rewrite !List.filter_app.
  rewrite !(Resolved_filter _ _ _ _ _ Hsrc) by by intros [].
  inversion Hing; subst; try congruence.
  assert (e0 = e) as -> by congruence.
  rewrite !stdout_of_app, !stderr_of_app, materialize_stdout, materialize_stderr,
    !List.filter_app, !filter_materialize by done.
  split_and!; try done.
  cbn [deferred]. rewrite app_nil_r.
  change [CreateCommitMetaStruct kv0; Stderr ("error: " +:+ Error e +:+ nl)]
    with ([CreateCommitMetaStruct kv0] ++ [Stderr ("error: " +:+ Error e +:+ nl)])%list.
  by rewrite !app_assoc, app_comm_cons, last_snoc.
Qed.

(* ===================================================================== *)
(** * HTTP mode, the other answers *)
(* ===================================================================== *)

(** X13. When the request for the URL cannot be built the run says so on
    standard error and returns: no request is sent and nothing is
    written. *)
Theorem unbuildable_request_returns env root e :
  Resolving env root ->
  stdin env = false ->
  HasPrefix (source env) "http" = true ->
  NewRequest_err env (source env) = Some e ->
  run env =
    {| run_end := Returned; run_db := database env;
       run_trace :=
         [GetDataset (target env); HttpNewRequest "GET" (source env);
          Stderr ("Could not build http request for url " +:+ source env
                  +:+ ", error: " +:+ Error e +:+ nl);
          DbClose] |}.
Proof.
  intros Hres Hstdin Hpre Hreq.
  pose proof (Resolving_usage _ _ Hres). pose proof (Resolving_dataset _ _ Hres).
  run_paths env; try congruence.
  - destruct Hres as [_ _ Hst]. unfold stored in Hst. rewrite Hh in Hst. congruence.
  - destruct Hun; try congruence. by assert (e0 = e) as -> by congruence.
  - destruct Hsrc; congruence.
Qed.

(** X14. When the request fails without an answer the run prints the URL
    and the error on standard error and returns, with nothing written. *)
Theorem failed_fetch_returns env root url e :
  HttpMode env root url ->
  Do env (build_request root url) = Err e ->
  run env =
    {| run_end := Returned; run_db := database env;
       run_trace :=
         [GetDataset (target env); HttpNewRequest "GET" url;
          HttpDo (build_request root url);
          Stderr ("Could not fetch url " +:+ url +:+ ", error: " +:+ Error e +:+ nl);
          DbClose] |}.
Proof.
  intros Hmode Hdo.
  destruct (http_mode_paths env root url Hmode)
    as [(e' & He & Hrun)|[(resp & Hr & _)|[(resp & Hr & _)
       |(resp & t & db' & evs & Hr & _)]]]; try congruence.
  by assert (e' = e) as -> by congruence.
Qed.

Lemma elem_of_progress_lines env len seen k r line :
  line ∈ progress_lines env len seen k r ->
  exists seen' elapsed, line = statusLine env len seen' elapsed.
Proof.
  revert seen k. induction r as [|p r IH]; intros seen k Hin; simpl in Hin.
  - by apply elem_of_nil in Hin.
  - apply elem_of_cons in Hin as [->|Hin]; [by eexists _, _|]. by eapply IH.
Qed.

Lemma Ingested_status_lines env db k r len kv t db' evs line :
  Ingested env db k (r, len, kv) t db' evs ->
  StatusPrintf line ∈ evs ->
  exists seen elapsed, line = statusLine env len seen elapsed.
Proof.
  intros Hing Hin.
  assert (Hmat : StatusPrintf line ∈ materialize env k r len).
  { inversion Hing; subst; apply elem_of_app in Hin as [Hin|Hin]; try done;
      in_ingested Hin. }
  unfold materialize in Hmat. apply elem_of_app in Hmat as [Hmat|Hmat].
  - destruct (negb (noProgress env)); [|by apply elem_of_nil in Hmat].
    apply list_elem_of_fmap in Hmat as (line' & [= ->] & Hl).
    by eapply elem_of_progress_lines.
  - by apply list_elem_of_singleton in Hmat.
Qed.

(** X15. In HTTP mode every status other than 304 and outside 400 to 599
    counts as success, whatever it is: the body of the answer is read into
    the blob, and the progress lines show the content length of the answer
    as the expected length. *)
Theorem other_status_is_ingested env root url resp :
  HttpMode env root url ->
  Do env (build_request root url) = Ok resp ->
  StatusCode resp <> 304 ->
  ~ (400 <= StatusCode resp <= 599) ->
  List.filter is_new_blob (run_trace (run env)) = [NewBlob (concat (Body resp))] /\
  (forall line, StatusPrintf line ∈ run_trace (run env) ->
     exists seen elapsed, line = statusLine env (ContentLength resp) seen elapsed).
Proof.
  intros Hmode Hdo H304 Hrange.
  rewrite <- is_error_status_range in Hrange.
  destruct (http_mode_paths env root url Hmode)
    as [(e' & He & _)|[(resp' & Hr & H304' & _)|[(resp' & Hr & _ & Hcls & _)
       |(resp' & t & db' & evs & Hr & _ & _ & Hing & Hrun)]]]; try congruence.
  assert (resp' = resp) as -> by congruence.
  split.
  - rewrite Hrun. simpl. rewrite List.filter_app, deferred_filter, app_nil_r by done.
    destruct (Ingested_store_calls _ _ _ _ _ _ _ Hing) as (data & Hblob & _).
    rewrite Hblob. inversion Hing; subst;
      rewrite ?List.filter_app, ?filter_materialize in Hblob by done;
      simpl in Hblob; try destruct (negb (noProgress env)); simpl in Hblob;
      congruence.
  - intros line Hin. rewrite Hrun in Hin. cbn [run_trace] in Hin.
    rewrite !elem_of_app, !elem_of_cons, elem_of_nil in Hin.
    destruct Hin as [[?|[?|[?|[]]]]|[Hin|Hin]]; try done.
    + by eapply Ingested_status_lines.
    + destruct t; simpl in Hin;
        try (apply list_elem_of_singleton in Hin; discriminate Hin);
        by apply elem_of_nil in Hin.
Qed.

(* ===================================================================== *)
(** * From one fetch to the next *)
(* ===================================================================== *)

Lemma root_of_http_meta url resp :
  root_of_fields (http_meta url resp ∅) =
  {| Etag := Header_Get (Header resp) "Etag"; File := EmptyString; URL := url |}.
Proof.
  unfold root_of_fields, http_meta.
  destruct (decide (Header_Get (Header resp) "Etag" ≠ EmptyString)) as [Hetag|Hetag].
  - rewrite lookup_insert_eq.
    rewrite (lookup_insert_ne _ "etag" "file"), (lookup_insert_ne _ "url" "file") by done.
    rewrite (lookup_insert_ne _ "etag" "url"), lookup_insert_eq by done.
    by rewrite lookup_empty.
  - rewrite (lookup_insert_ne _ "url" "etag"), (lookup_insert_ne _ "url" "file") by done.
    rewrite lookup_insert_eq, lookup_empty. simpl.
    destruct (decide (Header_Get (Header resp) "Etag" = EmptyString)) as [->|?]; done.
Qed.

Lemma root_of_file_meta path :
  root_of_fields (<["file" := path]> ∅) =
  {| Etag := EmptyString; File := path; URL := EmptyString |}.
Proof.
  unfold root_of_fields.
  rewrite (lookup_insert_ne _ "file" "etag"), (lookup_insert_ne _ "file" "url") by done.
  by rewrite lookup_insert_eq, lookup_empty.
Qed.

(** X16. What one fetch records decides the precondition of the next: with
    the metadata of a fetched URL stored, the next request carries
    If-None-Match, with the etag of that answer, exactly when it asks for the
    same URL and the answer had a non-empty Etag header; with the metadata of
    a file, or with none, no request ever carries the header. *)
Theorem etag_round_trip url resp path url' :
  req_Header (build_request (root_of_fields (http_meta url resp ∅)) url')
    !! "If-None-Match" =
    (if decide (url' = url /\ Header_Get (Header resp) "Etag" <> EmptyString)
     then Some (Header_Get (Header resp) "Etag") else None) /\
  req_Header (build_request (root_of_fields (<["file" := path]> ∅)) url')
    !! "If-None-Match" = None /\
  req_Header (build_request (root_of_fields ∅) url') !! "If-None-Match" = None.
Proof.
  rewrite root_of_http_meta, root_of_file_meta. unfold build_request. simpl.
  split_and!.
  - destruct (decide (url = url' ∧ Header_Get (Header resp) "Etag" ≠ EmptyString))
      as [[-> Hetag]|Hno]; simpl.
    + rewrite decide_True by done. apply lookup_insert_eq.
    + rewrite decide_False by (intros [-> ?]; by apply Hno). apply lookup_empty.
  - rewrite decide_False by (by intros [_ ?]). apply lookup_empty.
  - rewrite decide_False by (by intros [_ ?]). apply lookup_empty.
Qed.

(* ===================================================================== *)
(** * Standard input with a source argument *)
(* ===================================================================== *)

(** X17. With the stdin flag and two arguments the first argument is never
    looked at: the run is the run with the dataset as the only argument. *)
Theorem stdin_ignores_source_argument env a t :
  stdin env = true ->
  flag_Args env = [a; t] ->
  run env = run (with_args env [t]).
Proof.
  intros Hstdin Hargs.
  unfold run, main, initial, resolve, load_root, bad_usage, flag_Arg, flag_NArg,
    cfg_GetDataset, ingest, types_NewBlob, getStatusPrinter, statusLine, expected,
    rate, spec_CreateCommitMetaStruct, db_Commit, db_WriteValue, time_since_start.
  simpl. rewrite Hstdin, Hargs. reflexivity.
Qed.

(* ===================================================================== *)
(** * These theorems at the sample runs *)
(* ===================================================================== *)

Lemma unresolved_dataset_exits_witness :
  bad_usage Broken.no_dataset = false /\
  GetDataset_err Broken.no_dataset (target Broken.no_dataset)
    = Some (mkError "invalid dataset spec") /\
  run Broken.no_dataset =
    {| run_end := Exited 1; run_db := database Broken.no_dataset;
       run_trace := [GetDataset (target Broken.no_dataset);
                     Stderr ("error: " +:+ Error (mkError "invalid dataset spec")
                             +:+ nl)] |}.
Proof.
  split; [reflexivity|]. split; [reflexivity|].
  apply (unresolved_dataset_exits Broken.no_dataset (mkError "invalid dataset spec"));
    reflexivity.
Defined.

Lemma undecodable_head_returns_witness :
  bad_usage Broken.undecodable_head = false /\
  GetDataset_err Broken.undecodable_head (target Broken.undecodable_head) = None /\
  ds_head (database Broken.undecodable_head) =
    Some (CommitOf None (Blob Sample.hello)
            (<["etag" := "v1"]> (<["url" := Sample.example_url]> ∅))) /\
  Unmarshal Broken.undecodable_head
    (CommitOf None (Blob Sample.hello)
       (<["etag" := "v1"]> (<["url" := Sample.example_url]> ∅)))
    = Err (mkError "not a struct") /\
  run Broken.undecodable_head =
    {| run_end := Returned; run_db := database Broken.undecodable_head;
       run_trace := [GetDataset (target Broken.undecodable_head);
                     Stderr ("Could not unmarshal head: "
                             +:+ Error (mkError "not a struct") +:+ nl);
                     DbClose] |}.
Proof.
  split; [reflexivity|]. split; [reflexivity|]. split; [reflexivity|].
  split; [reflexivity|].
  apply (undecodable_head_returns Broken.undecodable_head
           (CommitOf None (Blob Sample.hello)
              (<["etag" := "v1"]> (<["url" := Sample.example_url]> ∅)))
           (mkError "not a struct")); reflexivity.
Defined.

Lemma dataset_is_last_argument_witness :
  bad_usage Sample.first_fetch = false /\
  (exists rest, flag_Args Sample.first_fetch = rest ++ [target Sample.first_fetch])%list /\
  head (run_trace (run Sample.first_fetch)) = Some (GetDataset (target Sample.first_fetch)) /\
  (stdin Sample.first_fetch = false ->
   flag_Args Sample.first_fetch = [source Sample.first_fetch; target Sample.first_fetch]).
Proof.
  split; [reflexivity|].
  apply (dataset_is_last_argument Sample.first_fetch). reflexivity.
Defined.

Lemma no_progress_is_silent_witness :
  noProgress Sample.stdin_conflict = true /\
  List.filter is_status_call (run_trace (run Sample.stdin_conflict)) = [].
Proof.
  split; [reflexivity|].
  apply (no_progress_is_silent Sample.stdin_conflict). reflexivity.
Defined.

Lemma accepted_commit_is_quiet_witness :
  Commit (Blob Sample.hello) Broken.committed_meta
    ∈ run_trace (run Sample.first_fetch) /\
  Commit_err Sample.first_fetch (database Sample.first_fetch) (Blob Sample.hello)
    Broken.committed_meta = None /\
  run_end (run Sample.first_fetch) = Returned /\
  stdout_of (run_trace (run Sample.first_fetch)) = [] /\
  stderr_of (run_trace (run Sample.first_fetch)) = [] /\
  (exists kv, CreateCommitMetaStruct kv ∈ run_trace (run Sample.first_fetch) /\
              CreateCommitMetaStruct_res Sample.first_fetch kv
                = Ok Broken.committed_meta) /\
  (StatusDone ∈ run_trace (run Sample.first_fetch) <->
   noProgress Sample.first_fetch = false) /\
  last (run_trace (run Sample.first_fetch)) = Some DbClose.
Proof.
  assert (Hin : Commit (Blob Sample.hello) Broken.committed_meta
                  ∈ run_trace (run Sample.first_fetch)).
  { vm_compute. do 6 apply list_elem_of_further. apply list_elem_of_here. }
  split; [exact Hin|]. split; [reflexivity|].
  apply (accepted_commit_is_quiet Sample.first_fetch (Blob Sample.hello)
           Broken.committed_meta);
    [exact Hin|reflexivity].
Defined.

Lemma commit_metadata_of_source_witness :
  CreateCommitMetaStruct Broken.fetched_fields ∈ run_trace (run Sample.first_fetch) /\
  performCommit Sample.first_fetch = true /\
  exists root resp,
    stored Sample.first_fetch root /\
    HttpDo (build_request root (source Sample.first_fetch))
      ∈ run_trace (run Sample.first_fetch) /\
    Do Sample.first_fetch (build_request root (source Sample.first_fetch)) = Ok resp /\
    Broken.fetched_fields !! "url" = Some (source Sample.first_fetch) /\
    Broken.fetched_fields !! "file" = None /\
    Broken.fetched_fields !! "etag" =
      (if decide (Header_Get (Header resp) "Etag" = EmptyString)
       then None else Some (Header_Get (Header resp) "Etag")).
Proof.
  assert (Hin : CreateCommitMetaStruct Broken.fetched_fields
                  ∈ run_trace (run Sample.first_fetch)).
  { vm_compute. do 5 apply list_elem_of_further. apply list_elem_of_here. }
  split; [exact Hin|].
  destruct (commit_metadata_of_source Sample.first_fetch Broken.fetched_fields Hin)
    as (Hmode & _ & _ & Hurl).
  split; [exact Hmode|].
  destruct (Hurl eq_refl eq_refl)
    as (root & resp & Hst & Hsent & Hdo & Hu & Hf & He & _).
  exists root, resp.
  split; [exact Hst|]. split; [exact Hsent|]. split; [exact Hdo|].
  split; [exact Hu|]. split; [exact Hf|exact He].
Defined.

Lemma metadata_failure_exits_witness :
  CreateCommitMetaStruct Broken.fetched_fields ∈ run_trace (run Broken.no_metadata) /\
  CreateCommitMetaStruct_res Broken.no_metadata Broken.fetched_fields
    = Err (mkError "bad date") /\
  is_exit (run_end (run Broken.no_metadata)) = true /\
  stderr_of (run_trace (run Broken.no_metadata)) =
    ["error: " +:+ Error (mkError "bad date") +:+ nl] /\
  stdout_of (run_trace (run Broken.no_metadata)) = [] /\
  List.filter is_commit (run_trace (run Broken.no_metadata)) = [] /\
  List.filter is_db_close (run_trace (run Broken.no_metadata)) = [] /\
  (exists data, NewBlob data ∈ run_trace (run Broken.no_metadata)) /\
  last (run_trace (run Broken.no_metadata)) =
    Some (Stderr ("error: " +:+ Error (mkError "bad date") +:+ nl)).
Proof.
  assert (Hin : CreateCommitMetaStruct Broken.fetched_fields
                  ∈ run_trace (run Broken.no_metadata)).
  { vm_compute. do 5 apply list_elem_of_further. apply list_elem_of_here. }
  split; [exact Hin|]. split; [reflexivity|].
  apply (metadata_failure_exits Broken.no_metadata Broken.fetched_fields
           (mkError "bad date"));
    [exact Hin|reflexivity].
Defined.

Lemma no_request_resolving : Resolving Broken.no_request zeroMeta.
Proof. repeat constructor. Defined.

Lemma unbuildable_request_returns_witness :
  Resolving Broken.no_request zeroMeta /\
  stdin Broken.no_request = false /\
  HasPrefix (source Broken.no_request) "http" = true /\
  NewRequest_err Broken.no_request (source Broken.no_request)
    = Some (mkError "invalid URL escape") /\
  run Broken.no_request =
    {| run_end := Returned; run_db := database Broken.no_request;
       run_trace :=
         [GetDataset (target Broken.no_request);
          HttpNewRequest "GET" (source Broken.no_request);
          Stderr ("Could not build http request for url " +:+ source Broken.no_request
                  +:+ ", error: " +:+ Error (mkError "invalid URL escape") +:+ nl);
          DbClose] |}.
Proof.
  split; [exact no_request_resolving|].
  split; [reflexivity|]. split; [reflexivity|]. split; [reflexivity|].
  apply (unbuildable_request_returns Broken.no_request zeroMeta
           (mkError "invalid URL escape"));
    [exact no_request_resolving|reflexivity|reflexivity|reflexivity].
Defined.

Lemma failed_fetch_returns_witness :
  HttpMode Broken.unreachable zeroMeta Sample.example_url /\
  Do Broken.unreachable (build_request zeroMeta Sample.example_url)
    = Err (mkError "connection refused") /\
  run Broken.unreachable =
    {| run_end := Returned; run_db := database Broken.unreachable;
       run_trace :=
         [GetDataset (target Broken.unreachable);
          HttpNewRequest "GET" Sample.example_url;
          HttpDo (build_request zeroMeta Sample.example_url);
          Stderr ("Could not fetch url " +:+ Sample.example_url +:+ ", error: "
                  +:+ Error (mkError "connection refused") +:+ nl);
          DbClose] |}.
Proof.
  split; [exact (first_fetch_http_mode _)|]. split; [reflexivity|].
  apply (failed_fetch_returns Broken.unreachable zeroMeta Sample.example_url
           (mkError "connection refused"));
    [exact (first_fetch_http_mode _)|reflexivity].
Defined.

Lemma other_status_is_ingested_witness :
  HttpMode Broken.fetch_redirect zeroMeta Sample.example_url /\
  Do Broken.fetch_redirect (build_request zeroMeta Sample.example_url)
    = Ok Broken.redirect_response /\
  StatusCode Broken.redirect_response <> 304 /\
  ~ (400 <= StatusCode Broken.redirect_response <= 599) /\
  List.filter is_new_blob (run_trace (run Broken.fetch_redirect)) =
    [NewBlob (concat (Body Broken.redirect_response))] /\
  (forall line, StatusPrintf line ∈ run_trace (run Broken.fetch_redirect) ->
     exists seen elapsed,
       line = statusLine Broken.fetch_redirect
                (ContentLength Broken.redirect_response) seen elapsed).
Proof.
  assert (H304 : StatusCode Broken.redirect_response <> 304) by (simpl; lia).
  assert (Hrange : ~ (400 <= StatusCode Broken.redirect_response <= 599))
    by (simpl; lia).
  split; [exact (first_fetch_http_mode _)|]. split; [reflexivity|].
  split; [exact H304|]. split; [exact Hrange|].
  apply (other_status_is_ingested Broken.fetch_redirect zeroMeta Sample.example_url
           Broken.redirect_response);
    [exact (first_fetch_http_mode _)|reflexivity|exact H304|exact Hrange].
Defined.

Lemma stdin_ignores_source_argument_witness :
  stdin Broken.stdin_two_arguments = true /\
  flag_Args Broken.stdin_two_arguments = ["ignored"; "ds"] /\
  run Broken.stdin_two_arguments = run (with_args Broken.stdin_two_arguments ["ds"]).
Proof.
  split; [reflexivity|]. split; [reflexivity|].
  apply (stdin_ignores_source_argument Broken.stdin_two_arguments "ignored" "ds");
    reflexivity.
Defined.

(** A file written without a commit: the head stays, the blob is added. *)
Example file_write_only_run :
  run Broken.file_write_only =
    {| run_end := Returned;
       run_db := {| ds_head := ds_head Sample.fetched_once;
                    db_values := Blob Sample.hello :: db_values Sample.fetched_once |};
       run_trace :=
         [GetDataset "ds"; OsOpen "/data/blob.bin"; FileStat "/data/blob.bin";
          NewBlob Sample.hello; WriteValue (Blob Sample.hello);
          Stdout ("#blob5" +:+ nl); DbClose] |}.
Proof. vm_compute. reflexivity. Qed.

(** The redirect is ingested like any success, with an unknown length. *)
Example redirect_run :
  run_trace (run Broken.fetch_redirect) =
    [GetDataset "ds"; HttpNewRequest "GET" Sample.example_url;
     HttpDo (mkRequest "GET" Sample.example_url ∅);
     StatusPrintf "5 B of (unknown) written in 1s (3 B/s)...";
     NewBlob Sample.hello;
     CreateCommitMetaStruct (<["url" := Sample.example_url]> ∅);
     Commit (Blob Sample.hello)
            (<["date" := "2016-01-01"]> (<["url" := Sample.example_url]> ∅));
     StatusDone; DbClose].
Proof. vm_compute. reflexivity. Qed.

(* ===================================================================== *)
(** * Whole seconds on the status line *)
(* ===================================================================== *)

Lemma digits2_pos_size p : digits2_pos p = Pos.size p.
Proof. induction p; simpl; congruence. Qed.

Lemma digits2_iter_xO m k :
  Zpos (digits2_pos (Pos.iter xO m k)) = Zpos (digits2_pos m) + Zpos k.
Proof.
  induction k using Pos.peano_ind.
  - simpl. lia.
  - rewrite Pos.iter_succ. simpl. lia.
Qed.

Lemma Zpos_iter_xO m k : Zpos (Pos.iter xO m k) = Zpos m * 2 ^ Zpos k.
Proof.
  induction k using Pos.peano_ind.
  - simpl. lia.
  - rewrite Pos.iter_succ, Pos2Z.inj_succ, Z.pow_succ_r by lia.
    rewrite Pos2Z.inj_xO, IHk. lia.
Qed.

Lemma digits2_bound m : Zpos m < 2 ^ 53 -> Zpos (digits2_pos m) <= 53.
Proof.
  intros H. rewrite digits2_pos_size.
  destruct (Z_le_gt_dec (Zpos (Pos.size m)) 53) as [Hok|Hgt]; [exact Hok|exfalso].
  pose proof (Pos.size_le m) as Hle.
  apply Pos2Z.pos_le_pos in Hle. rewrite Pos2Z.inj_pow in Hle.
  change (Z.pos 2) with 2 in Hle.
  assert (2 ^ 54 <= 2 ^ Zpos (Pos.size m)) by (apply Z.pow_le_mono_r; lia).
  assert (2 ^ 54 = 2 * 2 ^ 53) by reflexivity.
  lia.
Qed.

(** A mantissa of 53 digits with an exponent in range is its own rounding. *)
Lemma binary_round_aux_canonical mz ez :
  Zpos (digits2_pos mz) = 53 -> -1074 <= ez <= 971 ->
  binary_round_aux 53 1024 false (Zpos mz) ez loc_Exact = S754_finite false mz ez.
Proof.
  intros Hd He.
  assert (Hshift : fexp 53 1024 (Zdigits2 (Zpos mz) + ez) - ez = 0).
  { unfold fexp, emin, Zdigits2. rewrite Hd. lia. }
  unfold binary_round_aux, shr_fexp. rewrite Hshift.
  cbn [shr shr_record_of_loc loc_of_shr_record round_nearest_even shr_m shr_r shr_s].
  rewrite Hshift.
  cbn [shr shr_record_of_loc loc_of_shr_record round_nearest_even shr_m shr_r shr_s].
  change (1024 - 53) with 971.
  replace (ez <=? 971) with true by (symmetry; apply Z.leb_le; lia).
  reflexivity.
Qed.

Lemma binary_round_exact m :
  Zpos m < 2 ^ 53 ->
  exists mz ez,
    binary_round 53 1024 false m 0 = S754_finite false mz ez /\
    Z.shiftl (Zpos mz) ez = Zpos m.
Proof.
  intros Hm. pose proof (digits2_bound m Hm) as Hd.
  unfold binary_round, shl_align.
  assert (Hfexp : fexp 53 1024 (Zpos (digits2_pos m) + 0) = Zpos (digits2_pos m) - 53).
  { unfold fexp, emin. lia. }
  rewrite Hfexp.
  destruct (Zpos (digits2_pos m) - 53 - 0) as [|k|k] eqn:Hk; try lia.
  - exists m, 0. split; [|reflexivity].
    apply binary_round_aux_canonical; lia.
  - exists (Pos.iter xO m k), (Zpos (digits2_pos m) - 53). split.
    + apply binary_round_aux_canonical; [|lia].
      rewrite digits2_iter_xO. lia.
    + rewrite Zpos_iter_xO.
      replace (Zpos (digits2_pos m) - 53) with (- Zpos k) by lia.
      rewrite Z.shiftl_opp_r, Z.shiftr_div_pow2 by lia.
      apply Z.div_mul. lia.
Qed.

Lemma float64_of_Z_exact other n :
  0 <= n < 2 ^ 53 ->
  uint64_of_float64 other (float64_of_Z n) = n /\
  float64_add (float64_of_Z n) (S754_zero false) = float64_of_Z n.
Proof.
  intros Hn. destruct n as [|m|m]; [done| |lia].
  destruct (binary_round_exact m) as (mz & ez & Hround & Hshift); [lia|].
  unfold float64_of_Z, prec64, emax64. cbn [binary_normalize]. rewrite Hround.
  split; [|done].
  cbn [uint64_of_float64]. rewrite Hshift.
  replace (Z.pos m <? two64) with true; [done|].
  symmetry. apply Z.ltb_lt. unfold two64.
  assert (2 ^ 53 < 2 ^ 64) by done. lia.
Qed.

Lemma Seconds_whole n :
  0 <= n < 2 ^ 53 -> Seconds (n * 1000000000) = float64_of_Z n.
Proof.
  intros Hn. unfold Seconds.
  rewrite Z.quot_mul, Z.rem_mul by lia.
  change (float64_div (float64_of_Z 0) (float64_of_Z 1000000000))
    with (S754_zero false).
  by apply float64_of_Z_exact with (other := fun _ => 0).
Qed.

(** X19. When the elapsed time is a whole number of seconds, below 2^53, the
    status line shows exactly that number as the seconds, on every
    platform. *)
Theorem whole_seconds_are_shown env expectedLen seenLen n :
  0 <= n < 2 ^ 53 ->
  uint64_of_float64 (uint64_of_other env) (Seconds (n * 1000000000)) = n /\
  statusLine env expectedLen seenLen (n * 1000000000) =
    human_Bytes env seenLen +:+ " of " +:+ expected env expectedLen +:+
    " written in " +:+ itoa n +:+ "s (" +:+
    human_Bytes env (rate env seenLen (n * 1000000000)) +:+ "/s)...".
Proof.
  intros Hn.
  assert (Hsec : uint64_of_float64 (uint64_of_other env) (Seconds (n * 1000000000)) = n).
  { rewrite Seconds_whole by done. by apply float64_of_Z_exact. }
  split; [done|]. unfold statusLine. by rewrite Hsec.
Qed.

Lemma whole_seconds_are_shown_witness :
  0 <= 90 < 2 ^ 53 /\
  uint64_of_float64 (uint64_of_other Sample.first_fetch) (Seconds (90 * 1000000000)) = 90 /\
  statusLine Sample.first_fetch 10 5 (90 * 1000000000) =
    human_Bytes Sample.first_fetch 5 +:+ " of " +:+ expected Sample.first_fetch 10 +:+
    " written in " +:+ itoa 90 +:+ "s (" +:+
    human_Bytes Sample.first_fetch (rate Sample.first_fetch 5 (90 * 1000000000))
    +:+ "/s)...".
Proof.
  assert (H : 0 <= 90 < 2 ^ 53) by (split; [discriminate|reflexivity]).
  split; [exact H|].
  apply (whole_seconds_are_shown Sample.first_fetch 10 5 90). exact H.
Defined.
